(** * jinja2.environment: Environment, Template and TemplateStream

    A shallow embedding of [src/jinja2/environment.py] (Python 2).

    - Python exceptions are values of [exn]; a call that may raise returns a
      [result].
    - Calls that leave this module (the object protocol behind [getattr],
      [obj[key]] and [str], the compiled root routine of a template, the
      loader) are recorded in a trace of [event]s, so that statements such as
      "the root routine has not run" are statements about the trace.
    - A generator object is its pending items together with the way its body
      ends; [gen_next] is its [next()] method.
    - A [dict] with string keys is a [gmap string value]; [set(d)] is [dom d]. *)

From Stdlib Require Import ZArith String List Lia.
From stdpp Require Import base gmap strings list fin_maps pretty.

Open Scope string_scope.
Open Scope list_scope.
Open Scope Z_scope.

(** ** The host language: exceptions *)

Module Py.

(** The built-in exception classes of Python 2 that the module raises or
    catches, with their bases. *)
Inductive exc_class : Type :=
| BaseException
| Exception
| StandardError
| StopIteration
| AssertionError
| AttributeError
| LookupError
| IndexError
| KeyError
| TypeError
| ValueError
| UnicodeError
| UnicodeEncodeError
| UnicodeDecodeError
| RuntimeError.

#[global] Instance exc_class_eq_dec : EqDecision exc_class.
Proof. solve_decision. Defined.

Definition base_class (c : exc_class) : option exc_class :=
  match c with
  | BaseException => None
  | Exception => Some BaseException
  | StandardError => Some Exception
  | StopIteration => Some Exception
  | AssertionError => Some StandardError
  | AttributeError => Some StandardError
  | LookupError => Some StandardError
  | IndexError => Some LookupError
  | KeyError => Some LookupError
  | TypeError => Some StandardError
  | ValueError => Some StandardError
  | UnicodeError => Some ValueError
  | UnicodeEncodeError => Some UnicodeError
  | UnicodeDecodeError => Some UnicodeError
  | RuntimeError => Some StandardError
  end.

(** [issubclass c d]: the chain of bases is at most six classes long. *)
Fixpoint issubclass_upto (depth : nat) (c d : exc_class) : bool :=
  if decide (c = d) then true
  else match depth with
       | O => false
       | S depth =>
           match base_class c with
           | Some b => issubclass_upto depth b d
           | None => false
           end
       end.

Definition issubclass : exc_class -> exc_class -> bool := issubclass_upto 6.

(** An exception instance: its class and the message it was built with. *)
Record exn : Type := mk_exn { exn_class : exc_class; exn_message : string }.

#[global] Instance exn_eq_dec : EqDecision exn.
Proof. solve_decision. Defined.

(** [except (c1, c2, ...)] catches [e]. *)
Definition catches (handled : list exc_class) (e : exn) : bool :=
  existsb (issubclass (exn_class e)) handled.

Inductive result (A : Type) : Type :=
| Return (a : A)
| Raise (e : exn).
Arguments Return {A} a.
Arguments Raise {A} e.

Definition returns {A : Type} (r : result A) : bool :=
  match r with Return _ => true | Raise _ => false end.

(** ** Generators

    The items a root routine produces: text fragments, and the reference to
    the stream it yields first. *)
Inductive item : Type :=
| StreamRef
| Fragment (s : string).

#[global] Instance item_eq_dec : EqDecision item.
Proof. solve_decision. Defined.

(** [bool(item)]: a unicode string is true when it is not empty, any other
    object is true. *)
Definition truthy (i : item) : bool :=
  match i with
  | StreamRef => true
  | Fragment s => negb (String.eqb s "")
  end.

(** A generator object that has not finished: the items it will still yield
    and how its body ends afterwards, by returning ([None]) or by raising. *)
Record generator : Type :=
  mk_generator { gen_items : list item; gen_end : option exn }.

Definition exhausted : generator := mk_generator [] None.

(** [gen.next()].  A generator whose body has returned or raised is finished:
    every later call raises [StopIteration]. *)
Definition gen_next (g : generator) : result item * generator :=
  match gen_items g with
  | i :: rest => (Return i, mk_generator rest (gen_end g))
  | [] =>
      match gen_end g with
      | None => (Raise (mk_exn StopIteration ""), exhausted)
      | Some e => (Raise e, exhausted)
      end
  end.

(** [u''.join(seq)] on a list: every element has to be a string.  The
    message of the [TypeError] is cut short: Python adds the index and the
    type of the element. *)
Fixpoint join_list (l : list item) : result string :=
  match l with
  | [] => Return ""
  | Fragment s :: rest =>
      match join_list rest with
      | Return t => Return (s +:+ t)
      | Raise e => Raise e
      end
  | StreamRef :: _ =>
      Raise (mk_exn TypeError "sequence item: expected string or Unicode")
  end.

(** [u''.join(gen)]: the iterable is first read to its end, which a
    [StopIteration] marks, then joined. *)
Definition join (g : generator) : result string :=
  match gen_end g with
  | Some e =>
      if catches [StopIteration] e then join_list (gen_items g) else Raise e
  | None => join_list (gen_items g)
  end.

(** The built-in [dict] called with positional and keyword arguments, for
    mappings with string keys: at most one positional mapping, over which the
    keywords are laid. *)
Definition dict {V : Type} (args : list (gmap string V))
    (kwargs : gmap string V) : result (gmap string V) :=
  match args with
  | [] => Return kwargs
  | [m] => Return (kwargs ∪ m)
  | _ =>
      Raise (mk_exn TypeError
               ("dict expected at most 1 arguments, got "
                +:+ pretty (length args)))
  end.

(** [d.update(other)]: the entries of [other] replace those of [d]. *)
Definition update {V : Type} (d other : gmap string V) : gmap string V :=
  other ∪ d.

(** ** The object protocol

    [str(x)], [getattr(obj, name)] and [obj[key]] dispatch on the object's
    class and may run arbitrary code, so they are an interface of the value
    type.  *)
Class Protocol (value : Type) : Type := {
  str : value -> result string;
  getattr : value -> string -> result value;
  getitem : value -> value -> result value;
}.

(** The classes of [jinja2.runtime] that an environment may use for
    undefined values; [jinja2/__init__.py] exports these three. *)
Inductive undefined_class : Type :=
| Undefined
| DebugUndefined
| StrictUndefined.

(** Modelled from the spec: [jinja2.runtime] is not part of the sources.  The
    spec describes [Undefined] as a "sentinel value carrying (sourceObject,
    failedKey)" whose variant only decides what happens when the sentinel is
    used, so building one is a total function of the class, the object and the
    key. *)
Class Runtime (value : Type) : Type := {
  new_undefined : undefined_class -> value -> value -> value;
}.

(** ** Traces

    What a call of this module does outside of it, in order. *)
Inductive event (value : Type) : Type :=
| CallStr (x : value)
| CallGetattr (obj : value) (name : string)
| CallGetitem (obj key : value)
| CallRoot (context : gmap string value)
| CallLoader (name : string) (globals : gmap string value).
Arguments CallStr {value} x.
Arguments CallGetattr {value} obj name.
Arguments CallGetitem {value} obj key.
Arguments CallRoot {value} context.
Arguments CallLoader {value} name globals.

(** A computation: the events it caused, then how it ended. *)
Definition M (value A : Type) : Type := list (event value) * result A.

Definition ret {value A : Type} (a : A) : M value A := ([], Return a).

Definition raise {value A : Type} (e : exn) : M value A := ([], Raise e).

Definition bind {value A B : Type} (m : M value A) (k : A -> M value B)
    : M value B :=
  match m with
  | (tr, Return a) => let (tr', r) := k a in (tr ++ tr', r)
  | (tr, Raise e) => (tr, Raise e)
  end.

(** A step inside the module that may raise. *)
Definition lift {value A : Type} (r : result A) : M value A := ([], r).

(** An outside call: its event, and the outcome the callee gives. *)
Definition call {value A : Type} (ev : event value) (r : result A)
    : M value A := ([ev], r).

(** [try: body except handled: handler]. *)
Definition try_except {value A : Type} (body : M value A)
    (handled : list exc_class) (handler : exn -> M value A) : M value A :=
  match body with
  | (tr, Return a) => (tr, Return a)
  | (tr, Raise e) =>
      if catches handled e
      then let (tr', r) := handler e in (tr ++ tr', r)
      else (tr, Raise e)
  end.

#[global] Instance M_ret {value : Type} : MRet (M value) :=
  fun A => @ret value A.
#[global] Instance M_bind {value : Type} : MBind (M value) :=
  fun A B k m => @bind value A B m k.

Definition trace {value A : Type} (m : M value A) : list (event value) :=
  fst m.
Definition outcome {value A : Type} (m : M value A) : result A := snd m.

End Py.
Export Py.

(** ** class Environment *)

Module Environment.

(** The attributes [__init__] sets that this module reads.  [filters],
    [tests], [finalize] and [lexer] hold callables and objects of modules that
    are used by the compiled code only. *)
Record t {value Loader : Type} : Type := mk {
  block_start_string : string;
  block_end_string : string;
  variable_start_string : string;
  variable_end_string : string;
  comment_start_string : string;
  comment_end_string : string;
  line_statement_prefix : option string;
  trim_blocks : bool;
  undefined : undefined_class;
  optimized : bool;
  globals : gmap string value;
  loader : option Loader;
}.
Arguments t : clear implicits.

(** The loader's [load(environment, name, globals)], which builds a template
    of type [T] or raises. *)
Class LoaderProtocol (value Loader T : Type) : Type := {
  load : Loader -> t value Loader -> string -> gmap string value -> result T;
}.

Section methods.
Context {value Loader : Type} `{!Protocol value} `{!Runtime value}.

(** [__init__]: the attributes are the arguments, and [globals] is a copy of
    [DEFAULT_NAMESPACE].  That dict is defined in [jinja2.defaults], which is
    not among the sources, so it is an argument here.  The assertion that
    [undefined] is a subclass of [Undefined] holds by its type. *)
Definition __init__ (DEFAULT_NAMESPACE : gmap string value)
    (block_start_string block_end_string : string)
    (variable_start_string variable_end_string : string)
    (comment_start_string comment_end_string : string)
    (line_statement_prefix : option string) (trim_blocks optimized : bool)
    (undefined : undefined_class) (loader : option Loader) : t value Loader :=
  {| block_start_string := block_start_string;
     block_end_string := block_end_string;
     variable_start_string := variable_start_string;
     variable_end_string := variable_end_string;
     comment_start_string := comment_start_string;
     comment_end_string := comment_end_string;
     line_statement_prefix := line_statement_prefix;
     trim_blocks := trim_blocks;
     undefined := undefined;
     optimized := optimized;
     globals := DEFAULT_NAMESPACE;
     loader := loader |}.

(** [subscribe(self, obj, argument)]: get an item or attribute of an object. *)
Definition subscribe (self : t value Loader) (obj argument : value)
    : M value value :=
  try_except
    (name ← call (CallStr argument) (str argument);
     call (CallGetattr obj name) (getattr obj name))
    [AttributeError; UnicodeError]
    (fun _ =>
       try_except
         (call (CallGetitem obj argument) (getitem obj argument))
         [TypeError; LookupError]
         (fun _ => mret (new_undefined (undefined self) obj argument))).

(** [join_path(self, template, parent)]. *)
Definition join_path (self : t value Loader) (template parent : string)
    : string := template.

(** [make_globals(self, d)]: return a dict for the globals. *)
Definition make_globals (self : t value Loader)
    (d : option (gmap string value)) : gmap string value :=
  match d with
  | None => globals self
  | Some d => d ∪ globals self
  end.

(** [get_template(self, name, parent=None, globals=None)]: load a template. *)
Definition get_template {T : Type} `{!LoaderProtocol value Loader T}
    (self : t value Loader) (name : string) (parent : option string)
    (globals : option (gmap string value)) : M value T :=
  match loader self with
  | None => raise (mk_exn TypeError "no loader for this environment specified")
  | Some the_loader =>
      let name :=
        match parent with
        | Some parent => join_path self name parent
        | None => name
        end in
      let globals := make_globals self globals in
      call (CallLoader name globals) (load the_loader self name globals)
  end.

End methods.
End Environment.

(** ** class TemplateStream: wraps a generator for outputting template streams *)

Module TemplateStream.

(** The callable held in [self._next]: the bound method [gen.next], or the
    closure [buffering_next] that [enable_buffering] builds around [size]. *)
Inductive next_callable : Type :=
| bound_gen_next
| buffering_next_closure (size : Z).

#[global] Instance next_callable_eq_dec : EqDecision next_callable.
Proof. solve_decision. Defined.

Record t : Type := mk {
  _gen : generator;
  _next : next_callable;
  buffered : bool;
}.

(** [__init__(self, gen)]. *)
Definition __init__ (gen : generator) : t :=
  {| _gen := gen; _next := bound_gen_next; buffered := false |}.

(** [disable_buffering(self)]: disable the output buffering. *)
Definition disable_buffering (self : t) : t :=
  {| _gen := _gen self; _next := bound_gen_next; buffered := false |}.

(** [enable_buffering(self, size=5)]: buffer [size] items before yielding
    them.  Returns how the call ended and the stream after it. *)
Definition enable_buffering (self : t) (size : Z) : result unit * t :=
  if size <=? 1
  then (Raise (mk_exn ValueError "buffer size too small"), self)
  else (Return tt,
        {| _gen := _gen self;
           _next := buffering_next_closure size;
           buffered := true |}).

(** The [while 1] loop of [buffering_next].  It is left by an exception only:
    the one [next()] raises, or the [StopIteration] the loop raises itself
    once [c_size >= size].  The result is that exception with [buf], [c_size]
    and the generator as the loop leaves them.  Every round that does not
    leave the loop takes an item from the generator, so [rounds] may be one
    more than the number of pending items ([while_1_rounds] below). *)
Fixpoint while_1 (rounds : nat) (size : Z) (gen : generator)
    (buf : list item) (c_size : Z) : exn * list item * Z * generator :=
  match rounds with
  | O => (mk_exn RuntimeError "unreachable", buf, c_size, gen)
  | S rounds =>
      match gen_next gen with
      | (Raise e, gen) => (e, buf, c_size, gen)
      | (Return item, gen) =>
          let buf := if truthy item then buf ++ [item] else buf in
          let c_size := if truthy item then c_size + 1 else c_size in
          if c_size >=? size
          then (mk_exn StopIteration "", buf, c_size, gen)
          else while_1 rounds size gen buf c_size
      end
  end.

(** The closure [buffering_next()] for a given [size], applied to the
    generator of the stream. *)
Definition buffering_next (size : Z) (gen : generator)
    : result item * generator :=
  let '(e, buf, c_size, gen) :=
    while_1 (S (length (gen_items gen))) size gen [] 0 in
  if catches [StopIteration] e
  then
    if c_size =? 0
    then (Raise e, gen)
    else
      match join_list buf with
      | Return text => (Return (Fragment text), gen)
      | Raise e' => (Raise e', gen)
      end
  else (Raise e, gen).

(** [__iter__(self)]. *)
Definition __iter__ (self : t) : t := self.

(** [next(self)]: calls [self._next()]. *)
Definition next (self : t) : result item * t :=
  let '(r, gen) :=
    match _next self with
    | bound_gen_next => gen_next (_gen self)
    | buffering_next_closure size => buffering_next size (_gen self)
    end in
  (r, {| _gen := gen; _next := _next self; buffered := buffered self |}).

(** Iterating the stream to its end ([for fragment in stream]): the items
    [next] returns until it raises, the exception that ended the iteration
    when it is not [StopIteration], and the stream afterwards.  [pulls] bounds
    the number of calls of [next]; [None] when it is too small. *)
Fixpoint iterate (pulls : nat) (self : t)
    : option (list item * option exn * t) :=
  match pulls with
  | O => None
  | S pulls =>
      match next self with
      | (Raise e, self) =>
          Some ([], if catches [StopIteration] e then None else Some e, self)
      | (Return i, self) =>
          match iterate pulls self with
          | Some (items, e, self) => Some (i :: items, e, self)
          | None => None
          end
      end
  end.

End TemplateStream.

(** ** class Template *)

Module Template.

(** What executing the compiled code leaves in the namespace. *)
Record code {value : Type} : Type := mk_code {
  filename : string;
  root : gmap string value -> generator;
  code_blocks : gmap string (gmap string value -> generator);
}.
Arguments code : clear implicits.

Record t {value Loader : Type} : Type := mk {
  environment : Environment.t value Loader;
  name : string;
  root_render_func : gmap string value -> generator;
  blocks : gmap string (gmap string value -> generator);
  globals : gmap string value;
}.
Arguments t : clear implicits.

Section methods.
Context {value Loader : Type}.

(** The interpreter's [__debug__]: false when Python is started with [-O]. *)
Variable __debug__ : bool.

(** [__init__(self, environment, code, globals)]. *)
Definition __init__ (environment : Environment.t value Loader)
    (code : code value) (globals : gmap string value) : t value Loader :=
  {| environment := environment;
     name := filename code;
     root_render_func := root code;
     blocks := code_blocks code;
     globals := globals |}.

(** The message of the assertion in [generate].  [overrides] is a set; the
    order in which [', '.join] meets its elements is the order of
    [elements]. *)
Definition override_message (overrides : gset string) : string :=
  let plural := if negb (Nat.eqb (size overrides) 1) then "s" else "" in
  "the per template variable" +:+ plural +:+ " "
  +:+ String.concat ", " (elements overrides)
  +:+ " override" +:+ (if String.eqb plural "" then " a" else plural)
  +:+ " global variable" +:+ plural
  +:+ ". With an enabled optimizer this will lead to unexpected results.".

(** [generate(self, *args, **kwargs)]. *)
Definition generate (self : t value Loader)
    (args : list (gmap string value)) (kwargs : gmap string value)
    : M value generator :=
  local_context ← lift (dict args kwargs);
  let context := update (globals self) local_context in
  _ ← (if __debug__ && Environment.optimized (environment self)
       then
         let overrides := dom local_context ∩ dom (globals self) in
         if decide (overrides = ∅)
         then mret tt
         else raise (mk_exn AssertionError (override_message overrides))
       else mret tt);
  gen ← call (CallRoot context) (Return (root_render_func self context));
  let '(first, gen) := gen_next gen in
  match first with
  | Raise e => raise e
  | Return _ => mret gen
  end.

(** [render(self, *args, **kwargs)]. *)
Definition render (self : t value Loader)
    (args : list (gmap string value)) (kwargs : gmap string value)
    : M value string :=
  gen ← generate self args kwargs;
  lift (join gen).

(** [stream(self, *args, **kwargs)]. *)
Definition stream (self : t value Loader)
    (args : list (gmap string value)) (kwargs : gmap string value)
    : M value TemplateStream.t :=
  gen ← generate self args kwargs;
  mret (TemplateStream.__init__ gen).

End methods.
End Template.

(** ** A universe of objects

    Integers, byte and unicode strings, and instances whose attributes and
    items are given by tables.  An entry of a table is the value the access
    returns or the exception it raises (a property or a [__getitem__] that
    fails).  Integers and strings serve as keys; their own methods are not
    part of the universe. *)

Module Objects.

#[local] Unset Elimination Schemes.
Inductive object : Type :=
| PyInt (n : Z)
| PyStr (s : string)
| PyUnicode (s : string)
| PyInstance (attrs : list (string * result object))
             (items : option (list (object * result object)))
| PyUndefined (cls : undefined_class) (obj key : object).
#[local] Set Elimination Schemes.

(** [a == b] on keys. *)
Definition key_eqb (a b : object) : bool :=
  match a, b with
  | PyInt m, PyInt n => m =? n
  | (PyStr s | PyUnicode s), (PyStr s' | PyUnicode s') => String.eqb s s'
  | _, _ => false
  end.

Definition hashable (a : object) : bool :=
  match a with
  | PyInt _ | PyStr _ | PyUnicode _ => true
  | _ => false
  end.

Fixpoint is_ascii (s : string) : bool :=
  match s with
  | EmptyString => true
  | String a s => (Ascii.nat_of_ascii a <? 128)%nat && is_ascii s
  end.

Fixpoint find_attr (attrs : list (string * result object)) (name : string)
    : option (result object) :=
  match attrs with
  | [] => None
  | (n, r) :: attrs => if String.eqb n name then Some r else find_attr attrs name
  end.

Fixpoint find_item (items : list (object * result object)) (key : object)
    : option (result object) :=
  match items with
  | [] => None
  | (k, r) :: items => if key_eqb k key then Some r else find_item items key
  end.

(** [str(x)]: the default codec of Python 2 is ASCII, so a unicode string
    with other characters cannot be encoded. *)
Definition object_str (x : object) : result string :=
  match x with
  | PyInt n => Return (pretty n)
  | PyStr s => Return s
  | PyUnicode s =>
      if is_ascii s then Return s
      else Raise (mk_exn UnicodeEncodeError "'ascii' codec can't encode")
  | PyInstance _ _ => Return "<instance>"
  | PyUndefined _ _ _ => Return ""
  end.

Definition object_getattr (obj : object) (name : string) : result object :=
  match obj with
  | PyInstance attrs _ =>
      match find_attr attrs name with
      | Some r => r
      | None => Raise (mk_exn AttributeError name)
      end
  | _ => Raise (mk_exn AttributeError name)
  end.

Definition object_getitem (obj key : object) : result object :=
  match obj with
  | PyInstance _ (Some items) =>
      if hashable key
      then match find_item items key with
           | Some r => r
           | None => Raise (mk_exn KeyError "")
           end
      else Raise (mk_exn TypeError "unhashable type")
  | _ => Raise (mk_exn TypeError "object is unsubscriptable")
  end.

#[global] Instance object_protocol : Protocol object := {|
  str := object_str;
  getattr := object_getattr;
  getitem := object_getitem;
|}.

#[global] Instance object_runtime : Runtime object := {|
  new_undefined := PyUndefined;
|}.

(** A loader that holds its compiled templates in a dict. *)
Definition DictLoader : Type := gmap string (Template.code object).

#[global] Instance dict_loader_protocol
    : Environment.LoaderProtocol object DictLoader
        (Template.t object DictLoader) := {|
  Environment.load l env name globals :=
    match l !! name with
    | Some c => Return (Template.__init__ env c globals)
    | None => Raise (mk_exn LookupError name)
    end;
|}.

(** [Environment(optimized=..., loader=...)], the other arguments at their
    defaults, with [globals] as the default namespace. *)
Definition environment (optimized : bool) (globals : gmap string object)
    (loader : option DictLoader) : Environment.t object DictLoader :=
  Environment.__init__ globals "{%" "%}" "{{" "}}" "{#" "#}" None false
    optimized Undefined loader.

(** An instance whose property [k] raises. *)
Definition failing_property : object :=
  PyInstance [("k", Raise (mk_exn RuntimeError "boom"))] None.

(** An instance with the attribute [k] and the item ['k']. *)
Definition with_attribute : object :=
  PyInstance [("k", Return (PyInt 7))] (Some [(PyStr "k", Return (PyInt 8))]).

(** An instance without attributes that has an item for the string ['1'] and
    another for the integer [1]. *)
Definition keyed : object :=
  PyInstance []
    (Some [(PyStr "1", Return (PyStr "by name"));
           (PyInt 1, Return (PyStr "by index"))]).

(** The unicode string of the one character U+00E4, which ASCII cannot
    encode. *)
Definition a_umlaut : object :=
  PyUnicode (String (Ascii.ascii_of_nat 228) EmptyString).

(** A compiled unit whose root routine yields the stream reference, then the
    value of [x] when it is an integer, then two constant fragments. *)
Definition show_x : Template.code object :=
  {| Template.filename := "<string>";
     Template.root ctx :=
       mk_generator
         [StreamRef;
          Fragment (match ctx !! "x" with
                    | Some (PyInt n) => pretty n
                    | _ => ""
                    end);
          Fragment "";
          Fragment "!"] None;
     Template.code_blocks := ∅ |}.

(** A template of [show_x] in an environment with the global [x = 1]. *)
Definition shadowed (optimized : bool) : Template.t object DictLoader :=
  let env := environment optimized {[ "x" := PyInt 1 ]} None in
  Template.__init__ env show_x (Environment.make_globals env None).

(** A template of [show_x] with the globals [t = 5] and [x = 7] of its own, in
    an environment with the globals [x = 1] and [g = 0]. *)
Definition layered : Template.t object DictLoader :=
  let env :=
    environment false {[ "x" := PyInt 1; "g" := PyInt 0 ]} None in
  Template.__init__ env show_x
    (Environment.make_globals env
       (Some {[ "t" := PyInt 5; "x" := PyInt 7 ]})).

End Objects.

(** ** Environment.parse, Environment.compile and Environment.from_string

    The three methods of class [Environment] that turn source text into a
    template.  They stand here, after class [Template], because
    [from_string] builds one.  The parser, the optimizer, the code generator
    ([jinja2.parser], [jinja2.optimizer], [jinja2.compiler]) and the built-ins
    [compile] and [exec] are collaborators: what they return is given by an
    interface, and every call of one is recorded. *)

Module Compilation.

(** A file name: a [str] or a [unicode] object. *)
Inductive py_string : Type :=
| Str (s : string)
| Unicode (s : string).

#[global] Instance py_string_eq_dec : EqDecision py_string.
Proof. solve_decision. Defined.

(** The [source] argument of [compile]: a string or a node of the syntax
    tree. *)
Inductive source (Node : Type) : Type :=
| Text (s : string)
| Tree (node : Node).
Arguments Text {Node} s.
Arguments Tree {Node} node.

(** What [compile] returns: the generated Python source when [raw] is set,
    a code object otherwise. *)
Inductive compiled (Code : Type) : Type :=
| GeneratedSource (s : string)
| CodeObject (code : Code).
Arguments GeneratedSource {Code} s.
Arguments CodeObject {Code} code.

Class Collaborators (value Loader Node Code : Type) : Type := {
  (** [Parser(environment, source, filename).parse()] *)
  Parser_parse :
    Environment.t value Loader -> string -> option py_string -> result Node;
  (** [optimize(node, environment, globals)] *)
  optimize :
    Node -> Environment.t value Loader -> gmap string value -> result Node;
  (** [generate(node, environment, filename)] of [jinja2.compiler] *)
  generate :
    Node -> Environment.t value Loader -> option py_string -> result string;
  (** [filename.encode('utf-8')] *)
  encode_utf8 : string -> string;
  (** the built-in [compile(source, filename, 'exec')] *)
  builtin_compile : string -> option py_string -> result Code;
  (** [exec code in {'environment': environment}], followed by the lookups of
      ['filename'], ['root'] and ['blocks'] in that namespace *)
  exec :
    compiled Code -> Environment.t value Loader -> result (Template.code value);
}.

(** How a method fails: [UnboundLocalError] is what Python raises when a
    local variable is read before it has been assigned; the other exceptions
    are those the collaborators raise. *)
Inductive failure : Type :=
| UnboundLocalError (name : string)
| Raised (e : exn).

Inductive ending (A : Type) : Type :=
| Done (a : A)
| Failed (f : failure).
Arguments Done {A} a.
Arguments Failed {A} f.

Section methods.
Context {value Loader Node Code : Type}
  `{!Collaborators value Loader Node Code}.

(** The calls of collaborators, in order. *)
Inductive stage : Type :=
| Parsing (text : string) (filename : option py_string)
| Optimizing (node : Node) (globals : gmap string value)
| Generating (node : Node) (filename : option py_string)
| Compiling (text : string) (filename : option py_string)
| Executing (code : compiled Code).

(** A run: the stages gone through, then how it ended. *)
Definition run (A : Type) : Type := list stage * ending A.

Definition done {A : Type} (a : A) : run A := ([], Done a).

Definition fail {A : Type} (f : failure) : run A := ([], Failed f).

Definition and_then {A B : Type} (m : run A) (k : A -> run B) : run B :=
  match m with
  | (st, Done a) => let (st', r) := k a in (st ++ st', r)
  | (st, Failed f) => (st, Failed f)
  end.

(** A call of a collaborator. *)
Definition enter {A : Type} (s : stage) (r : result A) : run A :=
  ([s], match r with Return a => Done a | Raise e => Failed (Raised e) end).

Definition stages {A : Type} (m : run A) : list stage := fst m.
Definition ended {A : Type} (m : run A) : ending A := snd m.

(** [parse(self, source, filename=None)]. *)
Definition parse (self : Environment.t value Loader) (text : string)
    (filename : option py_string) : run Node :=
  enter (Parsing text filename) (Parser_parse self text filename).

(** [globals or {}]. *)
Definition or_empty (globals : option (gmap string value))
    : gmap string value :=
  match globals with
  | None => ∅
  | Some g => if decide (g = ∅) then ∅ else g
  end.

(** [compile(self, source, filename=None, raw=False, globals=None)]: compile
    a node or source.  The local [node] is assigned in the branch of
    [self.optimized] only; it is an [option], [None] while unassigned. *)
Definition compile (self : Environment.t value Loader) (source : source Node)
    (filename : option py_string) (raw : bool)
    (globals : option (gmap string value)) : run (compiled Code) :=
  and_then
    (match source with
     | Text text => parse self text filename
     | Tree node => done node
     end)
    (fun source =>
  and_then
    (if Environment.optimized self
     then and_then
            (enter (Optimizing source (or_empty globals))
               (optimize source self (or_empty globals)))
            (fun node => done (Some node))
     else done None)
    (fun node =>
  and_then
    (match node with
     | Some node => done node
     | None => fail (UnboundLocalError "node")
     end)
    (fun node =>
  and_then (enter (Generating node filename) (generate node self filename))
    (fun source =>
  if raw then done (GeneratedSource source)
  else
    let filename :=
      match filename with
      | Some (Unicode name) => Some (Str (encode_utf8 name))
      | _ => filename
      end in
    and_then
      (enter (Compiling source filename) (builtin_compile source filename))
      (fun code => done (CodeObject code)))))).

(** [from_string(self, source, filename='<string>', globals=None)]: load a
    template from a string.  [Template.__init__] executes the code; here the
    execution is the stage before the record is built. *)
Definition from_string (self : Environment.t value Loader)
    (source : source Node) (filename : option py_string)
    (globals : option (gmap string value)) : run (Template.t value Loader) :=
  let globals := Environment.make_globals self globals in
  and_then (compile self source filename false None)
    (fun code =>
  and_then (enter (Executing code) (exec code self))
    (fun namespace => done (Template.__init__ self namespace globals))).

End methods.
Arguments stage : clear implicits.
Arguments run : clear implicits.
End Compilation.

(** ** Collaborators for templates of literal text

    A parser that takes the whole source as one literal, an optimizer that
    changes nothing, and a code generator whose unit yields the stream
    reference and then the literal. *)

Module Literal.

#[global] Instance collaborators
    : Compilation.Collaborators Objects.object Objects.DictLoader
        string string := {|
  Compilation.Parser_parse _ text _ := Return text;
  Compilation.optimize node _ _ := Return node;
  Compilation.generate node _ _ := Return node;
  Compilation.encode_utf8 name := name;
  Compilation.builtin_compile text _ := Return text;
  Compilation.exec code _ :=
    Return
      {| Template.filename := "<string>";
         Template.root _ :=
           mk_generator
             [StreamRef;
              Fragment match code with
                       | Compilation.GeneratedSource text => text
                       | Compilation.CodeObject text => text
                       end] None;
         Template.code_blocks := ∅ |};
|}.

End Literal.

(** ** Vocabulary of the statements *)

(** Modelled from the spec: the module defines no exception class of its own.
    Section 7 of the spec names the error raised by [get_template] without a
    loader, by a local that shadows a global under the optimizer and by a
    buffer size that is too small a ConfigurationError; the three [raise]
    statements use the built-in classes [TypeError], [AssertionError] and
    [ValueError]. *)
Definition ConfigurationError (e : exn) : bool :=
  match exn_class e with
  | TypeError | AssertionError | ValueError => true
  | _ => false
  end.

(** The first attempt of [subscribe]: [getattr(obj, str(argument))]. *)
Definition attribute_attempt {value : Type} `{!Protocol value}
    (obj argument : value) : result value :=
  match str argument with
  | Return name => getattr obj name
  | Raise e => Raise e
  end.

(** The events of the first attempt: [str] is called, and [getattr] when
    [str] returned a name. *)
Definition attribute_events {value : Type} `{!Protocol value}
    (obj argument : value) : list (event value) :=
  CallStr argument ::
  match str argument with
  | Return name => [CallGetattr obj name]
  | Raise _ => []
  end.

(** A generator that yields the given texts and returns. *)
Definition fragments (texts : list string) : generator :=
  mk_generator (Fragment <$> texts) None.

(** The fragments of a list that are not empty. *)
Definition non_empty (texts : list string) : list string :=
  filter (fun s => s ≠ "") texts.

(** A stream over five fragments, two of them empty. *)
Definition sample_stream : TemplateStream.t :=
  TemplateStream.__init__ (fragments ["a"; ""; "b"; "c"; ""]).

(** The exception in which iterating a generator ends, when it is not the
    [StopIteration] of a normal end. *)
Definition ending_error (ending : option exn) : option exn :=
  match ending with
  | Some e => if catches [StopIteration] e then None else Some e
  | None => None
  end.

(** The [buffered] flag tells which callable [_next] holds, and a buffering
    closure has a size of at least 2. *)
Definition mode_consistent (self : TemplateStream.t) : Prop :=
  match TemplateStream._next self with
  | TemplateStream.bound_gen_next => TemplateStream.buffered self = false
  | TemplateStream.buffering_next_closure size =>
      TemplateStream.buffered self = true ∧ 2 ≤ size
  end.

(** The node [compile] works on: the source itself when it is a node, what
    the parser returns otherwise. *)
Definition parsed {value Loader Node Code : Type}
    `{!Compilation.Collaborators value Loader Node Code}
    (self : Environment.t value Loader) (source : Compilation.source Node)
    (filename : option Compilation.py_string) : result Node :=
  match source with
  | Compilation.Text text => Compilation.Parser_parse self text filename
  | Compilation.Tree node => Return node
  end.

(** The stages of getting to that node. *)
Definition parse_stages {value Node Code : Type}
    (source : Compilation.source Node)
    (filename : option Compilation.py_string)
    : list (Compilation.stage value Node Code) :=
  match source with
  | Compilation.Text text => [Compilation.Parsing text filename]
  | Compilation.Tree _ => []
  end.

(** A generator that yields two fragments, one of them empty, and then
    raises. *)
Definition failing_generator : generator :=
  mk_generator [Fragment "a"; Fragment ""]
    (Some (mk_exn RuntimeError "boom")).

(** A compiled unit whose root routine yields nothing. *)
Definition silent_unit : Template.code Objects.object :=
  {| Template.filename := "<string>";
     Template.root _ := mk_generator [] None;
     Template.code_blocks := ∅ |}.

(** A compiled unit whose root routine fails after its first fragment. *)
Definition failing_unit : Template.code Objects.object :=
  {| Template.filename := "<string>";
     Template.root _ :=
       mk_generator [StreamRef; Fragment "a"]
         (Some (mk_exn RuntimeError "boom"));
     Template.code_blocks := ∅ |}.

(** A template of the given unit in an optimized environment without
    globals. *)
Definition template_of (unit : Template.code Objects.object)
    : Template.t Objects.object Objects.DictLoader :=
  Template.__init__ (Objects.environment true ∅ None) unit ∅.

(** * Properties *)

(** ** Environment.subscribe *)

Section subscribe.
Context {value Loader : Type} `{!Protocol value} `{!Runtime value}.
Implicit Types (self : Environment.t value Loader) (obj argument : value).

Lemma subscribe_cases self obj argument :
  Environment.subscribe self obj argument =
  match attribute_attempt obj argument with
  | Return x => (attribute_events obj argument, Return x)
  | Raise e =>
      if catches [AttributeError; UnicodeError] e
      then
        (attribute_events obj argument ++ [CallGetitem obj argument],
         match getitem obj argument with
         | Return y => Return y
         | Raise e' =>
             if catches [TypeError; LookupError] e'
             then Return (new_undefined (Environment.undefined self) obj argument)
             else Raise e'
         end)
      else (attribute_events obj argument, Raise e)
  end.
Proof.
  unfold Environment.subscribe, attribute_attempt, attribute_events.
  unfold mbind, M_bind, mret, M_ret, try_except, bind, call, ret.
  destruct (str argument) as [name|e]; cbn -[catches].
  - destruct (getattr obj name) as [x|e]; cbn -[catches]; [reflexivity|].
    destruct (catches _ e); [|reflexivity].
    destruct (getitem obj argument) as [y|e']; cbn -[catches]; [reflexivity|].
    destruct (catches _ e'); reflexivity.
  - destruct (catches _ e); [|reflexivity].
    destruct (getitem obj argument) as [y|e']; cbn -[catches]; [reflexivity|].
    destruct (catches _ e'); reflexivity.
Qed.

(** C1, as amended.  [subscribe] first calls [getattr(obj, str(argument))] and
    returns what it returns.  When that attempt raises an [AttributeError] or
    a [UnicodeError], [subscribe] calls [obj[argument]] and returns what it
    returns; when that raises a [TypeError] or a [LookupError], [subscribe]
    returns [undefined(obj, argument)].  An exception leaves [subscribe] only
    when one of the two attempts raised it and its class is not among those
    the attempt's handler lists. *)
Theorem subscribe_resolution self obj argument :
  (∀ x, attribute_attempt obj argument = Return x →
     Environment.subscribe self obj argument
     = (attribute_events obj argument, Return x))
  ∧ (∀ e y, attribute_attempt obj argument = Raise e →
       catches [AttributeError; UnicodeError] e = true →
       getitem obj argument = Return y →
       Environment.subscribe self obj argument
       = (attribute_events obj argument ++ [CallGetitem obj argument],
          Return y))
  ∧ (∀ e e', attribute_attempt obj argument = Raise e →
       catches [AttributeError; UnicodeError] e = true →
       getitem obj argument = Raise e' →
       catches [TypeError; LookupError] e' = true →
       Environment.subscribe self obj argument
       = (attribute_events obj argument ++ [CallGetitem obj argument],
          Return (new_undefined (Environment.undefined self) obj argument)))
  ∧ (∀ e, outcome (Environment.subscribe self obj argument) = Raise e →
       (attribute_attempt obj argument = Raise e
        ∧ catches [AttributeError; UnicodeError] e = false)
       ∨ (∃ e0, attribute_attempt obj argument = Raise e0
            ∧ catches [AttributeError; UnicodeError] e0 = true
            ∧ getitem obj argument = Raise e
            ∧ catches [TypeError; LookupError] e = false)).
Proof.
  rewrite subscribe_cases. repeat split.
  - intros x ->. reflexivity.
  - intros e y -> -> ->. reflexivity.
  - intros e e' -> -> -> ->. reflexivity.
  - unfold outcome. intros e.
    destruct (attribute_attempt obj argument) as [x|e0]; [discriminate|].
    destruct (catches [AttributeError; UnicodeError] e0) eqn:Hattr.
    + cbn [snd].
      destruct (getitem obj argument) as [y|e']; [discriminate|].
      destruct (catches [TypeError; LookupError] e') eqn:Hitem;
        [discriminate|].
      intros [= ->]. right. exists e0. auto.
    + cbn [snd]. intros [= ->]. left. auto.
Qed.

(** C10.  The attribute attempt is made under the name [str(argument)], the
    item attempt with [argument] itself: when [str(argument)] is [name], the
    trace of [subscribe] is the call of [str], then [getattr(obj, name)],
    then at most [obj[argument]]; the item is asked for exactly when the
    attribute attempt raised an [AttributeError] or a [UnicodeError], and what
    [obj[argument]] returns is then the result. *)
Theorem subscribe_key_coercion self obj argument name :
  str argument = Return name →
  ∃ tail,
    trace (Environment.subscribe self obj argument)
    = CallStr argument :: CallGetattr obj name :: tail
    ∧ (∀ x, getattr obj name = Return x →
         tail = []
         ∧ outcome (Environment.subscribe self obj argument) = Return x)
    ∧ (∀ e, getattr obj name = Raise e →
         catches [AttributeError; UnicodeError] e = true →
         tail = [CallGetitem obj argument]
         ∧ ∀ y, getitem obj argument = Return y →
             outcome (Environment.subscribe self obj argument) = Return y)
    ∧ (∀ e, getattr obj name = Raise e →
         catches [AttributeError; UnicodeError] e = false →
         tail = []
         ∧ outcome (Environment.subscribe self obj argument) = Raise e).
Proof.
  intros Hstr. rewrite subscribe_cases.
  unfold attribute_attempt, attribute_events, trace, outcome. rewrite Hstr.
  destruct (getattr obj name) as [x|e].
  - exists []. split; [reflexivity|]. split; [|split].
    + intros x0 [= <-]. split; reflexivity.
    + intros e; discriminate.
    + intros e; discriminate.
  - destruct (catches [AttributeError; UnicodeError] e) eqn:Hattr.
    + exists [CallGetitem obj argument]. split; [reflexivity|].
      split; [|split].
      * intros x; discriminate.
      * intros e1 [= <-] _. split; [reflexivity|].
        intros y ->. reflexivity.
      * intros e1 [= <-]. congruence.
    + exists []. split; [reflexivity|]. split; [|split].
      * intros x; discriminate.
      * intros e1 [= <-]. congruence.
      * intros e1 [= <-] _. split; reflexivity.
Qed.

End subscribe.

Lemma subscribe_resolution_witness :
  let env := Objects.environment true ∅ None in
  (attribute_attempt Objects.with_attribute (Objects.PyStr "k")
   = Return (Objects.PyInt 7)
   ∧ outcome (Environment.subscribe env Objects.with_attribute
                (Objects.PyStr "k"))
     = Return (Objects.PyInt 7))
  ∧ (getitem Objects.keyed (Objects.PyInt 1)
     = Return (Objects.PyStr "by index")
     ∧ outcome (Environment.subscribe env Objects.keyed (Objects.PyInt 1))
       = Return (Objects.PyStr "by index"))
  ∧ (getitem (Objects.PyInt 5) (Objects.PyStr "k")
     = Raise (mk_exn TypeError "object is unsubscriptable")
     ∧ outcome (Environment.subscribe env (Objects.PyInt 5)
                  (Objects.PyStr "k"))
       = Return (Objects.PyUndefined Undefined (Objects.PyInt 5)
                   (Objects.PyStr "k")))
  ∧ (outcome (Environment.subscribe env Objects.failing_property
                (Objects.PyStr "k"))
     = Raise (mk_exn RuntimeError "boom")
     ∧ catches [AttributeError; UnicodeError] (mk_exn RuntimeError "boom")
       = false).
Proof.
  intros env. split; [|split; [|split]].
  - split; [reflexivity|].
    destruct (subscribe_resolution env Objects.with_attribute
                (Objects.PyStr "k")) as (H & _).
    rewrite (H (Objects.PyInt 7) eq_refl). reflexivity.
  - split; [reflexivity|].
    destruct (subscribe_resolution env Objects.keyed (Objects.PyInt 1))
      as (_ & H & _).
    rewrite (H (mk_exn AttributeError "1") _ eq_refl eq_refl eq_refl).
    reflexivity.
  - split; [reflexivity|].
    destruct (subscribe_resolution env (Objects.PyInt 5) (Objects.PyStr "k"))
      as (_ & _ & H & _).
    rewrite (H (mk_exn AttributeError "k") _ eq_refl eq_refl eq_refl eq_refl).
    reflexivity.
  - split; [reflexivity|].
    destruct (subscribe_resolution env Objects.failing_property
                (Objects.PyStr "k")) as (_ & _ & _ & H).
    destruct (H (mk_exn RuntimeError "boom") eq_refl)
      as [[_ Hc]|(e0 & He0 & Hc & _)]; [exact Hc|].
    injection He0 as <-. discriminate Hc.
Defined.

(** C1, as stated, fails: the property [k] of the instance raises a
    [RuntimeError], which the handler of the attribute attempt does not list,
    and [subscribe] raises it to its caller. *)
Lemma subscribe_raises_to_caller :
  let env := Objects.environment true ∅ None in
  Environment.subscribe env Objects.failing_property (Objects.PyStr "k")
  = ([CallStr (Objects.PyStr "k");
      CallGetattr Objects.failing_property "k"],
     Raise (mk_exn RuntimeError "boom"))
  ∧ ¬ ∃ x, outcome (Environment.subscribe env Objects.failing_property
                      (Objects.PyStr "k")) = Return x.
Proof.
  split; [reflexivity|]. intros [x Hx]. discriminate Hx.
Qed.

(** The handlers follow the class hierarchy: a [KeyError] is a
    [LookupError], a [UnicodeEncodeError] is a [UnicodeError], and a plain
    [ValueError] is not. *)
Example handlers_follow_bases :
  catches [TypeError; LookupError] (mk_exn KeyError "") = true
  ∧ catches [AttributeError; UnicodeError] (mk_exn UnicodeEncodeError "") = true
  ∧ catches [AttributeError; UnicodeError] (mk_exn ValueError "") = false.
Proof. repeat split. Qed.

(** A unicode key that [str] cannot encode: the attribute attempt ends in
    the [UnicodeEncodeError] of [str], [getattr] is not called, and the item
    is asked for with the key itself. *)
Example subscribe_unicode_key :
  let env := Objects.environment true ∅ None in
  Environment.subscribe env Objects.keyed Objects.a_umlaut
  = ([CallStr Objects.a_umlaut; CallGetitem Objects.keyed Objects.a_umlaut],
     Return (Objects.PyUndefined Undefined Objects.keyed Objects.a_umlaut)).
Proof. reflexivity. Qed.

Lemma subscribe_key_coercion_witness :
  let env := Objects.environment true ∅ None in
  str (Objects.PyInt 1) = Return "1"
  ∧ trace (Environment.subscribe env Objects.keyed (Objects.PyInt 1))
    = [CallStr (Objects.PyInt 1);
       CallGetattr Objects.keyed "1";
       CallGetitem Objects.keyed (Objects.PyInt 1)]
  ∧ outcome (Environment.subscribe env Objects.keyed (Objects.PyInt 1))
    = Return (Objects.PyStr "by index").
Proof.
  intros env.
  assert (Hstr : str (Objects.PyInt 1) = Return "1") by reflexivity.
  split; [exact Hstr|].
  destruct (subscribe_key_coercion env Objects.keyed (Objects.PyInt 1) "1"
              Hstr) as (tail & Htrace & _ & Hitem & _).
  destruct (Hitem (mk_exn AttributeError "1") eq_refl eq_refl)
    as [-> Hout].
  split; [exact Htrace|].
  exact (Hout (Objects.PyStr "by index") eq_refl).
Defined.

(** ** Environment.get_template *)

(** C9.  Without a loader, [get_template] raises the [TypeError] of its first
    statement, a ConfigurationError in the words of the spec, and its trace is
    empty: no loader has been called and no root routine has run. *)
Theorem get_template_no_loader {value Loader T : Type}
    `{!Environment.LoaderProtocol value Loader T}
    (self : Environment.t value Loader) (name : string)
    (parent : option string) (globals : option (gmap string value)) :
  Environment.loader self = None →
  ∃ e,
    Environment.get_template (T := T) self name parent globals = ([], Raise e)
    ∧ e = mk_exn TypeError "no loader for this environment specified"
    ∧ ConfigurationError e = true.
Proof.
  intros Hloader. eexists. split; [|split; reflexivity].
  unfold Environment.get_template. rewrite Hloader. reflexivity.
Qed.

Lemma get_template_no_loader_witness :
  let env := Objects.environment true ∅ None in
  Environment.loader env = None
  ∧ Environment.get_template
      (T := Template.t Objects.object Objects.DictLoader)
      env "index.html" (Some "layout.html") None
    = ([], Raise (mk_exn TypeError "no loader for this environment specified")).
Proof.
  intros env. split; [reflexivity|].
  destruct (get_template_no_loader
              (T := Template.t Objects.object Objects.DictLoader)
              env "index.html" (Some "layout.html") None eq_refl)
    as (e & Hget & -> & _).
  exact Hget.
Defined.

(** ** TemplateStream *)

Section stream.
Implicit Types (texts taken rest kept : list string) (size c : Z)
  (self : TemplateStream.t).

Lemma concat_cons (t : string) texts :
  String.concat "" (t :: texts) = t +:+ String.concat "" texts.
Proof.
  destruct texts as [|t' texts]; simpl; [|reflexivity].
  induction t as [|a t IH]; [reflexivity|].
  change (String a t = String a (t +:+ "")). f_equal. exact IH.
Qed.

Lemma append_assoc (s1 s2 s3 : string) :
  (s1 +:+ s2) +:+ s3 = s1 +:+ (s2 +:+ s3).
Proof.
  induction s1 as [|a s1 IH]; [reflexivity|].
  change (String a ((s1 +:+ s2) +:+ s3) = String a (s1 +:+ (s2 +:+ s3))).
  f_equal. exact IH.
Qed.

Lemma concat_app texts1 texts2 :
  String.concat "" (texts1 ++ texts2)
  = String.concat "" texts1 +:+ String.concat "" texts2.
Proof.
  induction texts1 as [|t texts1 IH]; [reflexivity|].
  rewrite <- app_comm_cons, !concat_cons, IH. now rewrite append_assoc.
Qed.

Lemma non_empty_cons_empty texts : non_empty ("" :: texts) = non_empty texts.
Proof. unfold non_empty. now rewrite filter_cons_False by (intros H; now apply H). Qed.

Lemma non_empty_cons t texts :
  t ≠ "" → non_empty (t :: texts) = t :: non_empty texts.
Proof. intros Ht. unfold non_empty. now rewrite filter_cons_True. Qed.

(** Dropping the empty fragments does not change the text. *)
Lemma concat_non_empty texts :
  String.concat "" (non_empty texts) = String.concat "" texts.
Proof.
  induction texts as [|t texts IH]; [reflexivity|].
  destruct (decide (t = "")) as [->|Ht].
  - now rewrite non_empty_cons_empty, concat_cons, IH.
  - now rewrite non_empty_cons, !concat_cons, IH.
Qed.

Lemma concat_non_empty_nil texts :
  non_empty texts = [] → String.concat "" texts = "".
Proof. intros H. now rewrite <- concat_non_empty, H. Qed.

(** Fragments that are not empty join to a text that is not empty. *)
Lemma concat_non_empty_neq texts :
  non_empty texts ≠ [] → String.concat "" (non_empty texts) ≠ "".
Proof.
  induction texts as [|t texts IH]; [intros H; now contradict H|].
  destruct (decide (t = "")) as [->|Ht].
  - rewrite non_empty_cons_empty. exact IH.
  - intros _. rewrite non_empty_cons, concat_cons by exact Ht.
    destruct t; [now contradict Ht|discriminate].
Qed.

Lemma truthy_fragment t : truthy (Fragment t) = bool_decide (t ≠ "").
Proof.
  unfold truthy.
  destruct (String.eqb_spec t "") as [Ht|Ht]; case_bool_decide;
    cbn [negb]; congruence.
Qed.

Lemma join_list_fragments texts :
  join_list (Fragment <$> texts) = Return (String.concat "" texts).
Proof.
  induction texts as [|t texts IH]; [reflexivity|].
  rewrite concat_cons. cbn [fmap list_fmap join_list].
  change (list_fmap _ _ Fragment texts) with (Fragment <$> texts).
  now rewrite IH.
Qed.

Lemma join_fragments texts :
  join (fragments texts) = Return (String.concat "" texts).
Proof. unfold join, fragments. cbn [gen_end gen_items]. apply join_list_fragments. Qed.

Lemma gen_next_fragments_cons t texts :
  gen_next (fragments (t :: texts)) = (Return (Fragment t), fragments texts).
Proof. reflexivity. Qed.

Lemma gen_next_fragments_nil :
  gen_next (fragments []) = (Raise (mk_exn StopIteration ""), fragments []).
Proof. reflexivity. Qed.

(** The loop never runs out of rounds when it is given more rounds than the
    generator has items pending: any two such numbers of rounds give the
    same result. *)
Lemma while_1_rounds (items : list item) (ending : option exn) :
  ∀ rounds rounds' size (buf : list item) c,
    (length items < rounds)%nat → (length items < rounds')%nat →
    TemplateStream.while_1 rounds size (mk_generator items ending) buf c
    = TemplateStream.while_1 rounds' size (mk_generator items ending) buf c.
Proof.
  induction items as [|i items IH]; intros rounds rounds' size buf c H H';
    (destruct rounds as [|rounds]; [cbn in H; lia|]);
    (destruct rounds' as [|rounds']; [cbn in H'; lia|]);
    cbn [TemplateStream.while_1]; unfold gen_next; cbn [gen_items gen_end].
  - destruct ending; reflexivity.
  - destruct (_ >=? size); [reflexivity|].
    apply IH; cbn in H, H'; lia.
Qed.

(** The loop of [buffering_next] on a generator of fragments: it takes a
    prefix [taken] of the pending fragments, appends those of them that are
    not empty to [buf], and leaves with a [StopIteration], either because
    [c_size] has reached [size] with the last fragment taken, or because the
    generator is exhausted. *)
Lemma while_1_fragments texts : ∀ rounds size kept c,
  (length texts < rounds)%nat → c < size →
  ∃ taken rest,
    texts = taken ++ rest
    ∧ TemplateStream.while_1 rounds size (fragments texts)
        (Fragment <$> kept) c
      = (mk_exn StopIteration "",
         Fragment <$> (kept ++ non_empty taken),
         c + Z.of_nat (length (non_empty taken)),
         fragments rest)
    ∧ ((c + Z.of_nat (length (non_empty taken)) = size
        ∧ ∃ init t, taken = init ++ [t] ∧ t ≠ "")
       ∨ (c + Z.of_nat (length (non_empty taken)) < size ∧ rest = [])).
Proof.
  induction texts as [|t texts IH]; intros rounds size kept c Hrounds Hc;
    (destruct rounds as [|rounds]; [cbn in Hrounds; lia|]).
  - exists [], []. split; [reflexivity|]. split.
    + cbn [TemplateStream.while_1]. rewrite gen_next_fragments_nil.
      rewrite app_nil_r, Z.add_0_r. reflexivity.
    + right. cbn. split; [lia|reflexivity].
  - cbn [TemplateStream.while_1]. rewrite gen_next_fragments_cons.
    rewrite truthy_fragment. cbn [length] in Hrounds.
    case_bool_decide as Ht.
    + destruct (Z.geb_spec (c + 1) size) as [Hfull|Hmore].
      * exists [t], texts. rewrite non_empty_cons by exact Ht.
        split; [reflexivity|]. split.
        -- rewrite fmap_app. reflexivity.
        -- left. cbn. split; [lia|]. exists [], t. split; [reflexivity|exact Ht].
      * destruct (IH rounds size (kept ++ [t]) (c + 1)) as
          (taken & rest & -> & Hloop & Hend); [lia|lia|].
        exists (t :: taken), rest. rewrite non_empty_cons by exact Ht.
        split; [reflexivity|]. split.
        -- rewrite fmap_app in Hloop. cbn [fmap list_fmap] in Hloop.
           rewrite Hloop. rewrite <- app_assoc. cbn [app length].
           rewrite Nat2Z.inj_succ.
           replace (c + Z.succ (Z.of_nat (length (non_empty taken))))
             with (c + 1 + Z.of_nat (length (non_empty taken))) by lia.
           reflexivity.
        -- cbn [length]. rewrite Nat2Z.inj_succ.
           destruct Hend as [(Hsize & init & t' & -> & Ht')|(Hless & ->)].
           ++ left. split; [lia|]. exists (t :: init), t'.
              split; [reflexivity|exact Ht'].
           ++ right. split; [lia|reflexivity].
    + subst t.
      destruct (Z.geb_spec c size) as [Hfull|_]; [lia|].
      destruct (IH rounds size kept c) as
        (taken & rest & -> & Hloop & Hend); [lia|lia|].
      exists ("" :: taken), rest. rewrite non_empty_cons_empty.
      split; [reflexivity|]. split; [exact Hloop|].
      destruct Hend as [(Hsize & init & t' & -> & Ht')|(Hless & ->)].
      * left. split; [exact Hsize|]. exists ("" :: init), t'.
        split; [reflexivity|exact Ht'].
      * right. split; [exact Hless|reflexivity].
Qed.

(** C4.  A size of at most 1 makes [enable_buffering] raise the [ValueError]
    of its first statement, a ConfigurationError in the words of the spec,
    and the stream is the one it was: the same generator, the same callable
    in [_next] and the same [buffered] flag. *)
Theorem enable_buffering_rejects_small self size :
  size ≤ 1 →
  ∃ e,
    TemplateStream.enable_buffering self size = (Raise e, self)
    ∧ e = mk_exn ValueError "buffer size too small"
    ∧ ConfigurationError e = true
    ∧ TemplateStream.buffered
        (snd (TemplateStream.enable_buffering self size))
      = TemplateStream.buffered self
    ∧ TemplateStream._next (snd (TemplateStream.enable_buffering self size))
      = TemplateStream._next self.
Proof.
  intros Hsize. unfold TemplateStream.enable_buffering.
  destruct (Z.leb_spec size 1) as [_|Hbig]; [|lia].
  eexists. repeat split; reflexivity.
Qed.

(** One call of [next] on a stream in buffering mode, over a generator of
    fragments. *)
Lemma buffered_pull self size texts :
  2 ≤ size →
  TemplateStream._next self = TemplateStream.buffering_next_closure size →
  TemplateStream._gen self = fragments texts →
  ∃ taken rest,
    texts = taken ++ rest
    ∧ ((Z.of_nat (length (non_empty taken)) = size
        ∧ ∃ init t, taken = init ++ [t] ∧ t ≠ "")
       ∨ (Z.of_nat (length (non_empty taken)) < size ∧ rest = []))
    ∧ TemplateStream.next self
      = (match non_empty taken with
         | [] => Raise (mk_exn StopIteration "")
         | _ :: _ => Return (Fragment (String.concat "" (non_empty taken)))
         end,
         {| TemplateStream._gen := fragments rest;
            TemplateStream._next := TemplateStream._next self;
            TemplateStream.buffered := TemplateStream.buffered self |}).
Proof.
  intros Hsize Hnext Hgen.
  destruct (while_1_fragments texts (S (length texts)) size [] 0)
    as (taken & rest & Htexts & Hloop & Hend); [lia|lia|].
  rewrite Z.add_0_l in Hloop, Hend. rewrite app_nil_l in Hloop.
  exists taken, rest. split; [exact Htexts|]. split; [exact Hend|].
  unfold TemplateStream.next. rewrite Hnext, Hgen.
  unfold TemplateStream.buffering_next.
  replace (length (gen_items (fragments texts))) with (length texts)
    by (unfold fragments; cbn [gen_items]; now rewrite length_fmap).
  change (@nil item) with (Fragment <$> @nil string). rewrite Hloop.
  change (catches [StopIteration] (mk_exn StopIteration "")) with true.
  cbn iota. rewrite join_list_fragments.
  destruct (non_empty taken) as [|k kept]; reflexivity.
Qed.

(** C5.  One pull from a stream buffered with [size >= 2] whose generator
    still has the fragments [texts] to yield.  The pull takes a prefix
    [taken] of [texts] from the generator and leaves [rest]; it stops with the
    fragment that makes the number of fragments kept, those of [taken] that
    are not empty, equal to [size], or else when the generator is exhausted.
    It returns the kept fragments joined as one fragment; when nothing has
    been kept, which happens only on an exhausted generator, it raises
    [StopIteration].  A fragment it returns is never empty. *)
Theorem buffered_next_chunk self size texts :
  2 ≤ size →
  TemplateStream._next self = TemplateStream.buffering_next_closure size →
  TemplateStream._gen self = fragments texts →
  ∃ taken rest,
    texts = taken ++ rest
    ∧ ((Z.of_nat (length (non_empty taken)) = size
        ∧ ∃ init t, taken = init ++ [t] ∧ t ≠ "")
       ∨ (Z.of_nat (length (non_empty taken)) < size ∧ rest = []))
    ∧ TemplateStream.next self
      = (match non_empty taken with
         | [] => Raise (mk_exn StopIteration "")
         | _ :: _ => Return (Fragment (String.concat "" (non_empty taken)))
         end,
         {| TemplateStream._gen := fragments rest;
            TemplateStream._next := TemplateStream._next self;
            TemplateStream.buffered := TemplateStream.buffered self |})
    ∧ (non_empty taken = [] → rest = [])
    ∧ (∀ text, fst (TemplateStream.next self) = Return (Fragment text) →
         text ≠ "").
Proof.
  intros Hsize Hnext Hgen.
  destruct (buffered_pull self size texts Hsize Hnext Hgen)
    as (taken & rest & Htexts & Hend & Hpull).
  exists taken, rest. split; [exact Htexts|]. split; [exact Hend|].
  split; [exact Hpull|]. split.
  - intros Hkept. rewrite Hkept in Hend. cbn in Hend.
    destruct Hend as [[Hzero _]|[_ Hrest]]; [lia|exact Hrest].
  - rewrite Hpull. cbn [fst].
    destruct (non_empty taken) as [|k kept] eqn:Hkept; [discriminate|].
    intros text [= <-]. change (String.concat "" (k :: kept) ≠ "").
    rewrite <- Hkept.
    apply concat_non_empty_neq. now rewrite Hkept.
Qed.

(** Without buffering, iterating the stream gives the fragments of the
    generator one by one, the empty ones too. *)
Lemma iterate_unbuffered texts : ∀ pulls self,
  (length texts < pulls)%nat →
  TemplateStream._next self = TemplateStream.bound_gen_next →
  TemplateStream._gen self = fragments texts →
  ∃ self',
    TemplateStream.iterate pulls self = Some (Fragment <$> texts, None, self').
Proof.
  induction texts as [|t texts IH]; intros pulls self Hpulls Hnext Hgen;
    (destruct pulls as [|pulls]; [cbn in Hpulls; lia|]);
    cbn [TemplateStream.iterate]; unfold TemplateStream.next;
    rewrite Hnext, Hgen.
  - rewrite gen_next_fragments_nil. eexists. reflexivity.
  - rewrite gen_next_fragments_cons.
    edestruct (IH pulls) as [self' Hiter]; [cbn in Hpulls; lia| | |].
    3: { rewrite Hiter. eexists. reflexivity. }
    + reflexivity.
    + reflexivity.
Qed.

(** With buffering, iterating the stream gives chunks that join to the text
    of the fragments the generator had to yield. *)
Lemma iterate_buffered size : ∀ pulls texts self,
  2 ≤ size →
  (length texts < pulls)%nat →
  TemplateStream._next self = TemplateStream.buffering_next_closure size →
  TemplateStream._gen self = fragments texts →
  ∃ chunks self',
    TemplateStream.iterate pulls self = Some (Fragment <$> chunks, None, self')
    ∧ String.concat "" chunks = String.concat "" texts.
Proof.
  induction pulls as [|pulls IH]; intros texts self Hsize Hpulls Hnext Hgen;
    [lia|].
  destruct (buffered_pull self size texts Hsize Hnext Hgen)
    as (taken & rest & -> & Hend & Hpull).
  cbn [TemplateStream.iterate]. rewrite Hpull.
  destruct (non_empty taken) as [|k kept] eqn:Hkept.
  - change (catches [StopIteration] (mk_exn StopIteration "")) with true.
    exists []. eexists. split; [reflexivity|].
    destruct Hend as [[Hzero _]|[_ ->]]; [cbn in Hzero; lia|].
    rewrite app_nil_r. symmetry. now apply concat_non_empty_nil.
  - edestruct (IH rest) as (chunks & self' & Hiter & Hconcat);
      [exact Hsize| | | |].
    4: { rewrite Hiter.
         exists (String.concat "" (k :: kept) :: chunks), self'.
         split; [reflexivity|].
         rewrite concat_cons, Hconcat, concat_app, <- Hkept.
         now rewrite concat_non_empty. }
    + rewrite length_app in Hpulls.
      destruct taken; [discriminate Hkept|]. cbn [length] in Hpulls. lia.
    + exact Hnext.
    + reflexivity.
Qed.

(** C3.  Take a stream whose generator still has the fragments [texts] to
    yield and a size of at least 2.  [enable_buffering] succeeds, iterating
    the buffered stream ends and gives [chunks], iterating the same stream
    without buffering ends and gives [texts], and both join to the same
    text. *)
Theorem buffering_preserves_text self size texts pulls :
  2 ≤ size →
  TemplateStream._gen self = fragments texts →
  (length texts < pulls)%nat →
  ∃ buffered chunks end_buffered end_raw,
    TemplateStream.enable_buffering self size = (Return tt, buffered)
    ∧ TemplateStream.iterate pulls buffered
      = Some (Fragment <$> chunks, None, end_buffered)
    ∧ TemplateStream.iterate pulls (TemplateStream.disable_buffering self)
      = Some (Fragment <$> texts, None, end_raw)
    ∧ String.concat "" chunks = String.concat "" texts.
Proof.
  intros Hsize Hgen Hpulls.
  destruct (iterate_buffered size pulls texts
              {| TemplateStream._gen := TemplateStream._gen self;
                 TemplateStream._next :=
                   TemplateStream.buffering_next_closure size;
                 TemplateStream.buffered := true |}
              Hsize Hpulls eq_refl Hgen)
    as (chunks & end_buffered & Hbuffered & Hconcat).
  destruct (iterate_unbuffered texts pulls
              (TemplateStream.disable_buffering self) Hpulls eq_refl Hgen)
    as (end_raw & Hraw).
  eexists _, chunks, end_buffered, end_raw.
  split; [|split; [exact Hbuffered|split; [exact Hraw|exact Hconcat]]].
  unfold TemplateStream.enable_buffering.
  destruct (Z.leb_spec size 1) as [Hsmall|_]; [lia|reflexivity].
Qed.

End stream.

Lemma enable_buffering_rejects_small_witness :
  (1 ≤ 1
   ∧ TemplateStream.enable_buffering sample_stream 1
     = (Raise (mk_exn ValueError "buffer size too small"), sample_stream))
  ∧ (0 ≤ 1
     ∧ TemplateStream.enable_buffering sample_stream 0
       = (Raise (mk_exn ValueError "buffer size too small"), sample_stream)).
Proof.
  split; (split; [lia|]).
  - destruct (enable_buffering_rejects_small sample_stream 1)
      as (e & Hcall & -> & _); [lia|exact Hcall].
  - destruct (enable_buffering_rejects_small sample_stream 0)
      as (e & Hcall & -> & _); [lia|exact Hcall].
Defined.

Lemma buffered_next_chunk_witness :
  let buffered := snd (TemplateStream.enable_buffering sample_stream 2) in
  2 ≤ 2
  ∧ TemplateStream._next buffered = TemplateStream.buffering_next_closure 2
  ∧ TemplateStream._gen buffered = fragments ["a"; ""; "b"; "c"; ""]
  ∧ ∃ taken rest,
      ["a"; ""; "b"; "c"; ""] = taken ++ rest
      ∧ TemplateStream.next buffered
        = (match non_empty taken with
           | [] => Raise (mk_exn StopIteration "")
           | _ :: _ => Return (Fragment (String.concat "" (non_empty taken)))
           end,
           {| TemplateStream._gen := fragments rest;
              TemplateStream._next := TemplateStream.buffering_next_closure 2;
              TemplateStream.buffered := true |}).
Proof.
  intros buffered.
  split; [lia|]. split; [reflexivity|]. split; [reflexivity|].
  destruct (buffered_next_chunk buffered 2 ["a"; ""; "b"; "c"; ""])
    as (taken & rest & Htexts & _ & Hpull & _); [lia|reflexivity|reflexivity|].
  exists taken, rest. split; [exact Htexts|exact Hpull].
Defined.

Lemma buffering_preserves_text_witness :
  2 ≤ 2
  ∧ TemplateStream._gen sample_stream = fragments ["a"; ""; "b"; "c"; ""]
  ∧ (length ["a"; ""; "b"; "c"; ""] < 6)%nat
  ∧ ∃ chunks end_buffered,
      TemplateStream.iterate 6
        (snd (TemplateStream.enable_buffering sample_stream 2))
      = Some (Fragment <$> chunks, None, end_buffered)
      ∧ String.concat "" chunks = "abc".
Proof.
  split; [lia|]. split; [reflexivity|]. split; [cbn; lia|].
  destruct (buffering_preserves_text sample_stream 2
              ["a"; ""; "b"; "c"; ""] 6)
    as (buffered & chunks & end_buffered & end_raw
        & Henable & Hbuffered & _ & Hconcat);
    [lia|reflexivity|cbn; lia|].
  exists chunks, end_buffered. rewrite Henable. split; [exact Hbuffered|].
  exact Hconcat.
Defined.

(** The chunks of the sample stream for sizes 2 and 3. *)
Example sample_stream_buffered :
  TemplateStream.iterate 6
    (snd (TemplateStream.enable_buffering sample_stream 2))
  = Some ([Fragment "ab"; Fragment "c"], None,
          {| TemplateStream._gen := fragments [];
             TemplateStream._next := TemplateStream.buffering_next_closure 2;
             TemplateStream.buffered := true |})
  ∧ TemplateStream.iterate 6
      (snd (TemplateStream.enable_buffering sample_stream 3))
    = Some ([Fragment "abc"], None,
            {| TemplateStream._gen := fragments [];
               TemplateStream._next := TemplateStream.buffering_next_closure 3;
               TemplateStream.buffered := true |}).
Proof. split; reflexivity. Qed.

(** ** Template.generate, render and stream *)

Section template.
Context {value Loader : Type}.
Implicit Types (self : Template.t value Loader)
  (args : list (gmap string value)) (kwargs locals : gmap string value).

(** [generate] by cases: the arguments do not make a dict; a local overrides
    a global under the optimizer; or the root routine is called and resumed
    once. *)
Lemma generate_cases (__debug__ : bool) self args kwargs :
  Template.generate __debug__ self args kwargs =
  match dict args kwargs with
  | Raise e => ([], Raise e)
  | Return locals =>
      let overrides := dom locals ∩ dom (Template.globals self) in
      if __debug__ && Environment.optimized (Template.environment self)
         && negb (bool_decide (overrides = ∅))
      then ([], Raise (mk_exn AssertionError
                         (Template.override_message overrides)))
      else
        let context := update (Template.globals self) locals in
        match gen_next (Template.root_render_func self context) with
        | (Return _, gen) => ([CallRoot context], Return gen)
        | (Raise e, _) => ([CallRoot context], Raise e)
        end
  end.
Proof.
  unfold Template.generate, mbind, M_bind, mret, M_ret, bind, call, raise, ret,
    lift.
  destruct (dict args kwargs) as [locals|e]; [|reflexivity].
  cbn zeta.
  destruct (__debug__ && Environment.optimized (Template.environment self)).
  - cbn [andb]. case_bool_decide as Hov; cbn [negb];
      destruct (decide (dom locals ∩ dom (Template.globals self) = ∅));
      try contradiction; [|reflexivity].
    destruct (gen_next _) as [[i|e1] gen]; reflexivity.
  - cbn [andb].
    destruct (gen_next _) as [[i|e1] gen]; reflexivity.
Qed.

Lemma gen_next_returns (gen gen' : generator) (first : item) :
  gen_next gen = (Return first, gen') →
  gen = mk_generator (first :: gen_items gen') (gen_end gen').
Proof.
  unfold gen_next. destruct gen as [[|i items] ending]; cbn.
  - destruct ending; discriminate.
  - intros [= -> <-]. reflexivity.
Qed.

(** A call that [generate] does not refuse runs the root routine on the
    assembled context and resumes its generator once. *)
Lemma generate_runs_root (__debug__ : bool) self args kwargs locals
    first rest ending :
  dict args kwargs = Return locals →
  __debug__ && Environment.optimized (Template.environment self) = false
  ∨ dom locals ∩ dom (Template.globals self) = ∅ →
  Template.root_render_func self (update (Template.globals self) locals)
  = mk_generator (first :: rest) ending →
  Template.generate __debug__ self args kwargs
  = ([CallRoot (update (Template.globals self) locals)],
     Return (mk_generator rest ending)).
Proof.
  intros Hdict Hpass Hroot. rewrite generate_cases, Hdict. cbn zeta.
  assert (__debug__ && Environment.optimized (Template.environment self)
          && negb (bool_decide
                     (dom locals ∩ dom (Template.globals self) = ∅))
          = false) as ->.
  { destruct Hpass as [->| ->]; [reflexivity|].
    rewrite bool_decide_eq_true_2 by reflexivity. apply andb_false_r. }
  rewrite Hroot. reflexivity.
Qed.

(** C7.  When the arguments make a dict, no local is refused and the
    generator of the root routine yields [first] and then [rest], [generate]
    calls the root routine once, on the assembled context, and returns the
    generator with [rest] left to yield.  Whenever [generate] returns a
    generator, the root routine has been called once and its generator is the
    returned one with one more item in front. *)
Theorem generate_discards_first (__debug__ : bool) self args kwargs :
  (∀ locals first rest ending,
     dict args kwargs = Return locals →
     __debug__ && Environment.optimized (Template.environment self) = false
     ∨ dom locals ∩ dom (Template.globals self) = ∅ →
     Template.root_render_func self (update (Template.globals self) locals)
     = mk_generator (first :: rest) ending →
     Template.generate __debug__ self args kwargs
     = ([CallRoot (update (Template.globals self) locals)],
        Return (mk_generator rest ending)))
  ∧ (∀ gen,
       outcome (Template.generate __debug__ self args kwargs) = Return gen →
       ∃ context first,
         trace (Template.generate __debug__ self args kwargs)
         = [CallRoot context]
         ∧ Template.root_render_func self context
           = mk_generator (first :: gen_items gen) (gen_end gen)).
Proof.
  split.
  - intros locals first rest ending. apply generate_runs_root.
  - intros gen. rewrite generate_cases. unfold outcome, trace.
    destruct (dict args kwargs) as [locals|e]; [|discriminate]. cbn zeta.
    destruct (_ && negb _); [discriminate|].
    destruct (gen_next _) as [[first|e] gen'] eqn:Hnext; [|discriminate].
    cbn. intros [= ->]. eexists _, first. split; [reflexivity|].
    now apply gen_next_returns.
Qed.

(** C8.  For a template whose globals are [make_globals(d)] of an
    environment, the context of a call maps a name to its value in the
    call's locals, otherwise to its value in [d], otherwise to its value in
    the globals of the environment.  That context is what the root routine
    receives: it is the argument of every call of the root routine, and the
    root routine is called unless [generate] refuses a local. *)
Theorem context_precedence (__debug__ : bool)
    (env : Environment.t value Loader) (d : option (gmap string value))
    self args kwargs locals :
  Template.globals self = Environment.make_globals env d →
  dict args kwargs = Return locals →
  ∃ context,
    (∀ name,
       context !! name =
       match locals !! name with
       | Some v => Some v
       | None =>
           match d ≫= (.!! name) with
           | Some v => Some v
           | None => Environment.globals env !! name
           end
       end)
    ∧ (∀ ctx, CallRoot ctx ∈ trace (Template.generate __debug__ self args kwargs) →
         ctx = context)
    ∧ (__debug__ && Environment.optimized (Template.environment self) = false
       ∨ dom locals ∩ dom (Template.globals self) = ∅ →
       trace (Template.generate __debug__ self args kwargs)
       = [CallRoot context]).
Proof.
  intros Hglobals Hdict. exists (update (Template.globals self) locals).
  split; [|split].
  - intros name. rewrite Hglobals. unfold update, Environment.make_globals.
    rewrite lookup_union. destruct (locals !! name) as [v|].
    + now destruct d as [d|]; [rewrite lookup_union|];
        destruct (_ !! name); try destruct (_ !! name).
    + destruct d as [d|]; cbn.
      * rewrite lookup_union.
        destruct (d !! name), (Environment.globals env !! name); reflexivity.
      * destruct (Environment.globals env !! name); reflexivity.
  - intros ctx. rewrite generate_cases, Hdict. cbn zeta. unfold trace.
    destruct (_ && negb _); [cbn; intros H; now apply elem_of_nil in H|].
    destruct (gen_next _) as [[first|e] gen']; cbn;
      intros H; apply list_elem_of_singleton in H; now injection H.
  - intros Hpass. rewrite generate_cases, Hdict. cbn zeta.
    assert (__debug__ && Environment.optimized (Template.environment self)
            && negb (bool_decide
                       (dom locals ∩ dom (Template.globals self) = ∅))
            = false) as ->.
    { destruct Hpass as [->| ->]; [reflexivity|].
      rewrite bool_decide_eq_true_2 by reflexivity. apply andb_false_r. }
    destruct (gen_next _) as [[first|e] gen']; reflexivity.
Qed.

Lemma render_cases (__debug__ : bool) self args kwargs :
  Template.render __debug__ self args kwargs =
  match Template.generate __debug__ self args kwargs with
  | (tr, Return gen) => (tr, join gen)
  | (tr, Raise e) => (tr, Raise e)
  end.
Proof.
  unfold Template.render, mbind, M_bind, bind, lift.
  destruct (Template.generate _ _ _ _) as [tr [gen|e]]; [|reflexivity].
  now rewrite app_nil_r.
Qed.

Lemma stream_cases (__debug__ : bool) self args kwargs :
  Template.stream __debug__ self args kwargs =
  match Template.generate __debug__ self args kwargs with
  | (tr, Return gen) => (tr, Return (TemplateStream.__init__ gen))
  | (tr, Raise e) => (tr, Raise e)
  end.
Proof.
  unfold Template.stream, mbind, M_bind, mret, M_ret, bind, ret.
  destruct (Template.generate _ _ _ _) as [tr [gen|e]]; [|reflexivity].
  now rewrite app_nil_r.
Qed.

(** C2, as amended.  Take a call whose locals share a name with the globals
    of the template.  With [__debug__] true and an optimized environment,
    [generate], and with it [render] and [stream], raises an
    [AssertionError], a ConfigurationError in the words of the spec, and the
    trace is empty: the root routine has not been called.  With an
    environment that is not optimized, and a root routine that yields its
    first item, [generate] returns the rest of the root routine's generator,
    and the context the root routine was called on maps every name of the
    locals to the local value. *)
Theorem generate_refuses_overrides self args kwargs locals :
  dict args kwargs = Return locals →
  dom locals ∩ dom (Template.globals self) ≠ ∅ →
  (Environment.optimized (Template.environment self) = true →
   ∃ e,
     Template.generate true self args kwargs = ([], Raise e)
     ∧ Template.render true self args kwargs = ([], Raise e)
     ∧ Template.stream true self args kwargs = ([], Raise e)
     ∧ exn_class e = AssertionError
     ∧ ConfigurationError e = true)
  ∧ (Environment.optimized (Template.environment self) = false →
     ∀ (__debug__ : bool) first rest ending,
       Template.root_render_func self (update (Template.globals self) locals)
       = mk_generator (first :: rest) ending →
       Template.generate __debug__ self args kwargs
       = ([CallRoot (update (Template.globals self) locals)],
          Return (mk_generator rest ending))
       ∧ ∀ name v,
           locals !! name = Some v →
           update (Template.globals self) locals !! name = Some v).
Proof.
  intros Hdict Hshadow. split.
  - intros Hopt.
    assert (Hgen : Template.generate true self args kwargs
                   = ([], Raise (mk_exn AssertionError
                                   (Template.override_message
                                      (dom locals
                                       ∩ dom (Template.globals self)))))).
    { rewrite generate_cases, Hdict. cbn zeta. rewrite Hopt.
      now rewrite bool_decide_eq_false_2 by exact Hshadow. }
    eexists. split; [exact Hgen|].
    rewrite render_cases, stream_cases, Hgen. repeat split.
  - intros Hopt __debug__ first rest ending Hroot. split.
    + apply (generate_runs_root __debug__ self args kwargs locals
               first rest ending Hdict); [|exact Hroot].
      left. rewrite Hopt. apply andb_false_r.
    + intros name v Hlocal. unfold update.
      now apply lookup_union_Some_l.
Qed.

(** C6.  [render] and [stream] call [generate] and nothing else outside the
    module, and raise what it raises.  When [generate] returns a generator,
    [render] returns the join of what the generator yields, which is the
    concatenation of its fragments, and [stream] returns an unbuffered stream
    over that generator, which yields its fragments one by one. *)
Theorem render_and_stream_wrap_generate (__debug__ : bool) self args kwargs :
  trace (Template.render __debug__ self args kwargs)
  = trace (Template.generate __debug__ self args kwargs)
  ∧ trace (Template.stream __debug__ self args kwargs)
    = trace (Template.generate __debug__ self args kwargs)
  ∧ match outcome (Template.generate __debug__ self args kwargs) with
    | Raise e =>
        outcome (Template.render __debug__ self args kwargs) = Raise e
        ∧ outcome (Template.stream __debug__ self args kwargs) = Raise e
    | Return gen =>
        outcome (Template.render __debug__ self args kwargs) = join gen
        ∧ (∀ texts, gen = fragments texts →
             outcome (Template.render __debug__ self args kwargs)
             = Return (String.concat "" texts))
        ∧ ∃ stream,
            outcome (Template.stream __debug__ self args kwargs)
            = Return stream
            ∧ TemplateStream._gen stream = gen
            ∧ TemplateStream._next stream = TemplateStream.bound_gen_next
            ∧ TemplateStream.buffered stream = false
            ∧ ∀ texts, gen = fragments texts →
                ∃ stream',
                  TemplateStream.iterate (S (length texts)) stream
                  = Some (Fragment <$> texts, None, stream')
    end.
Proof.
  rewrite render_cases, stream_cases. unfold trace, outcome.
  destruct (Template.generate _ _ _ _) as [tr [gen|e]]; cbn [fst snd];
    [|repeat split].
  split; [reflexivity|]. split; [reflexivity|]. split; [reflexivity|].
  split.
  - intros texts ->. apply join_fragments.
  - exists (TemplateStream.__init__ gen). repeat split.
    intros texts ->.
    apply iterate_unbuffered; [lia|reflexivity|reflexivity].
Qed.

End template.

Lemma generate_refuses_overrides_witness :
  let locals : gmap string Objects.object := {[ "x" := Objects.PyInt 2 ]} in
  dict [] locals = Return locals
  ∧ dom locals ∩ dom (Template.globals (Objects.shadowed true)) ≠ ∅
  ∧ (∃ e,
       Template.render true (Objects.shadowed true) [] locals = ([], Raise e)
       ∧ exn_class e = AssertionError)
  ∧ Template.generate true (Objects.shadowed false) [] locals
    = ([CallRoot locals], Return (fragments ["2"; ""; "!"])).
Proof.
  intros locals.
  assert (Hshadow : ∀ optimized,
            dom locals ∩ dom (Template.globals (Objects.shadowed optimized))
            ≠ ∅).
  { intros optimized Hempty.
    assert (Hx : "x" ∈ dom locals
                 ∩ dom (Template.globals (Objects.shadowed optimized))).
    { apply elem_of_intersection. split; apply elem_of_dom; eexists;
        reflexivity. }
    rewrite Hempty in Hx. now apply not_elem_of_empty in Hx. }
  split; [reflexivity|]. split; [apply Hshadow|]. split.
  - destruct (generate_refuses_overrides (Objects.shadowed true) [] locals
                locals eq_refl (Hshadow true)) as [Hraise _].
    destruct (Hraise eq_refl) as (e & _ & Hrender & _ & Hclass & _).
    exists e. split; [exact Hrender|exact Hclass].
  - destruct (generate_refuses_overrides (Objects.shadowed false) [] locals
                locals eq_refl (Hshadow false)) as [_ Hpass].
    destruct (Hpass eq_refl true StreamRef
                [Fragment "2"; Fragment ""; Fragment "!"] None eq_refl)
      as [Hgen _].
    exact Hgen.
Defined.

(** C2, as stated, fails: under [python -O], where [__debug__] is false, the
    check is skipped.  The environment is optimized and the local [x] shadows
    the global [x], yet the root routine runs on a context with the local
    value and [render] returns its text. *)
Lemma render_with_override_under_O :
  let locals : gmap string Objects.object := {[ "x" := Objects.PyInt 2 ]} in
  Environment.optimized (Template.environment (Objects.shadowed true)) = true
  ∧ "x" ∈ dom locals ∩ dom (Template.globals (Objects.shadowed true))
  ∧ Template.render false (Objects.shadowed true) [] locals
    = ([CallRoot locals], Return "2!")
  ∧ ∀ e, outcome (Template.generate false (Objects.shadowed true) [] locals)
         ≠ Raise e.
Proof.
  intros locals. split; [reflexivity|]. split.
  - apply elem_of_intersection. split; apply elem_of_dom; eexists; reflexivity.
  - split; [reflexivity|]. intros e. discriminate.
Qed.

Lemma generate_discards_first_witness :
  let locals : gmap string Objects.object := {[ "x" := Objects.PyInt 2 ]} in
  dict [] locals = Return locals
  ∧ true && Environment.optimized
              (Template.environment (Objects.shadowed false)) = false
  ∧ Template.root_render_func (Objects.shadowed false)
      (update (Template.globals (Objects.shadowed false)) locals)
    = mk_generator
        [StreamRef; Fragment "2"; Fragment ""; Fragment "!"] None
  ∧ Template.generate true (Objects.shadowed false) [] locals
    = ([CallRoot locals],
       Return (mk_generator [Fragment "2"; Fragment ""; Fragment "!"] None)).
Proof.
  intros locals. split; [reflexivity|]. split; [reflexivity|].
  split; [reflexivity|].
  exact (proj1 (generate_discards_first true (Objects.shadowed false)
                  [] locals)
           locals StreamRef [Fragment "2"; Fragment ""; Fragment "!"] None
           eq_refl (or_introl eq_refl) eq_refl).
Defined.

Lemma context_precedence_witness :
  let locals : gmap string Objects.object := {[ "x" := Objects.PyInt 2 ]} in
  let env := Template.environment Objects.layered in
  let d : gmap string Objects.object :=
    {[ "t" := Objects.PyInt 5; "x" := Objects.PyInt 7 ]} in
  Template.globals Objects.layered = Environment.make_globals env (Some d)
  ∧ dict [] locals = Return locals
  ∧ ∃ context,
      context !! "x" = Some (Objects.PyInt 2)
      ∧ context !! "t" = Some (Objects.PyInt 5)
      ∧ context !! "g" = Some (Objects.PyInt 0)
      ∧ context !! "y" = None
      ∧ trace (Template.generate true Objects.layered [] locals)
        = [CallRoot context].
Proof.
  intros locals env d. split; [reflexivity|]. split; [reflexivity|].
  destruct (context_precedence true env (Some d) Objects.layered [] locals
              locals eq_refl eq_refl) as (context & Hlookup & _ & Htrace).
  exists context. rewrite !Hlookup.
  repeat (split; [reflexivity|]).
  apply Htrace. left. reflexivity.
Defined.

Lemma render_and_stream_wrap_generate_witness :
  let locals : gmap string Objects.object := {[ "x" := Objects.PyInt 2 ]} in
  outcome (Template.render true (Objects.shadowed false) [] locals)
  = Return "2!"
  ∧ ∃ stream stream',
      outcome (Template.stream true (Objects.shadowed false) [] locals)
      = Return stream
      ∧ TemplateStream.iterate 4 stream
        = Some ([Fragment "2"; Fragment ""; Fragment "!"], None, stream').
Proof.
  intros locals.
  pose proof (render_and_stream_wrap_generate true (Objects.shadowed false)
                [] locals) as (_ & _ & H).
  change (outcome (Template.generate true (Objects.shadowed false) []
                     locals))
    with (Return (A := generator) (fragments ["2"; ""; "!"])) in H.
  cbn iota in H. destruct H as (_ & Hrender & stream & Hstream & _ & _ & _ & Hiter).
  split; [exact (Hrender _ eq_refl)|].
  destruct (Hiter _ eq_refl) as [stream' Hstream'].
  exists stream, stream'. split; [exact Hstream|exact Hstream'].
Defined.

(** ** Environment.get_template with a loader *)

(** X16.  With a loader, [get_template] makes one call of the loader's
    [load], with the name as it was given, whatever [parent] is, since
    [join_path] returns the name unchanged, and with [make_globals(globals)];
    it returns or raises what the loader returns or raises. *)
Lemma get_template_calls_loader {value Loader T : Type}
    `{!Environment.LoaderProtocol value Loader T}
    (self : Environment.t value Loader) (the_loader : Loader) (name : string)
    (parent : option string) (globals : option (gmap string value)) :
  Environment.loader self = Some the_loader →
  Environment.get_template (T := T) self name parent globals
  = ([CallLoader name (Environment.make_globals self globals)],
     Environment.load the_loader self name
       (Environment.make_globals self globals)).
Proof.
  intros Hloader. unfold Environment.get_template. rewrite Hloader.
  destruct parent; reflexivity.
Qed.

(** * Further properties *)

(** ** TemplateStream: modes, exhaustion and errors *)

Section stream_modes.
Implicit Types (texts taken rest kept : list string) (size c : Z)
  (self : TemplateStream.t) (items : list item) (ending : option exn).

Lemma gen_next_raises (gen gen' : generator) (e : exn) :
  gen_next gen = (Raise e, gen') → gen' = exhausted.
Proof.
  unfold gen_next. destruct (gen_items gen); [|discriminate].
  destruct (gen_end gen); now intros [= _ <-].
Qed.

Lemma join_list_raises (l : list item) (e : exn) :
  join_list l = Raise e → exn_class e = TypeError.
Proof.
  induction l as [|[|s] l IH]; cbn; [discriminate|now intros [= <-]|].
  destruct (join_list l); [discriminate|]. intros [= <-]. now apply IH.
Qed.

(** Iterating an unbuffered stream over any generator. *)
Lemma iterate_bound items : ∀ ending pulls self,
  (length items < pulls)%nat →
  TemplateStream._next self = TemplateStream.bound_gen_next →
  TemplateStream._gen self = mk_generator items ending →
  TemplateStream.iterate pulls self
  = Some (items, ending_error ending,
          {| TemplateStream._gen := exhausted;
             TemplateStream._next := TemplateStream.bound_gen_next;
             TemplateStream.buffered := TemplateStream.buffered self |}).
Proof.
  induction items as [|i items IH]; intros ending pulls self Hpulls Hnext Hgen;
    (destruct pulls as [|pulls]; [cbn in Hpulls; lia|]);
    cbn [TemplateStream.iterate]; unfold TemplateStream.next;
    rewrite Hnext, Hgen; unfold gen_next; cbn [gen_items gen_end].
  - destruct ending as [e|]; reflexivity.
  - erewrite IH; [reflexivity|cbn in Hpulls; lia|reflexivity|reflexivity].
Qed.

(** The loop of [buffering_next] on any generator: [c_size] does not
    decrease, and the loop is left with the generator finished or with
    [c_size] at [size] or above. *)
Lemma while_1_leaves items ending :
  ∀ rounds size (buf buf' : list item) c c' (e : exn) (gen' : generator),
    (length items < rounds)%nat →
    TemplateStream.while_1 rounds size (mk_generator items ending) buf c
    = (e, buf', c', gen') →
    c ≤ c' ∧ (gen' = exhausted ∨ size ≤ c').
Proof.
  induction items as [|i items IH];
    intros rounds size buf buf' c c' e gen' Hrounds;
    (destruct rounds as [|rounds]; [cbn in Hrounds; lia|]);
    cbn [TemplateStream.while_1]; unfold gen_next; cbn [gen_items gen_end].
  - destruct ending; intros [= _ _ <- <-]; split; auto; lia.
  - destruct (Z.geb_spec (if truthy i then c + 1 else c) size) as [Hfull|_].
    + intros [= _ _ <- _]. destruct (truthy i); split; auto; lia.
    + intros Hloop. apply IH in Hloop; [|cbn in Hrounds; lia].
      destruct (truthy i); split; try tauto; lia.
Qed.

(** The loop on fragments of which fewer than [size] are not empty: it runs
    until the generator ends and leaves with the way the generator ended. *)
Lemma while_1_short texts : ∀ rounds size kept c ending,
  (length texts < rounds)%nat →
  c + Z.of_nat (length (non_empty texts)) < size →
  TemplateStream.while_1 rounds size
    (mk_generator (Fragment <$> texts) ending) (Fragment <$> kept) c
  = (match ending with Some e => e | None => mk_exn StopIteration "" end,
     Fragment <$> (kept ++ non_empty texts),
     c + Z.of_nat (length (non_empty texts)),
     exhausted).
Proof.
  induction texts as [|t texts IH]; intros rounds size kept c ending Hrounds Hc;
    (destruct rounds as [|rounds]; [cbn in Hrounds; lia|]);
    cbn [TemplateStream.while_1]; unfold gen_next;
    cbn [gen_items gen_end fmap list_fmap].
  - rewrite app_nil_r, Z.add_0_r. destruct ending; reflexivity.
  - change (list_fmap _ _ Fragment texts) with (Fragment <$> texts).
    rewrite truthy_fragment. cbn [length] in Hrounds.
    case_bool_decide as Ht.
    + rewrite non_empty_cons in Hc |- * by exact Ht.
      cbn [length] in Hc. rewrite Nat2Z.inj_succ in Hc.
      destruct (Z.geb_spec (c + 1) size) as [Hfull|_]; [lia|].
      change ((Fragment <$> kept) ++ [Fragment t])
        with ((Fragment <$> kept) ++ (Fragment <$> [t])).
      rewrite <- fmap_app, IH by lia.
      rewrite <- app_assoc. cbn [app length]. rewrite Nat2Z.inj_succ.
      replace (c + 1 + Z.of_nat (length (non_empty texts)))
        with (c + Z.succ (Z.of_nat (length (non_empty texts)))) by lia.
      reflexivity.
    + subst t. rewrite non_empty_cons_empty in Hc |- *.
      destruct (Z.geb_spec c size) as [Hfull|_]; [lia|].
      now rewrite IH by lia.
Qed.

(** X1.  Without buffering a stream relays its generator: iterating it gives
    the pending items in order, every one as it is, the empty fragments too,
    and ends with the exception the generator ended with; the generator is
    exhausted afterwards.  That holds for a fresh stream and for any stream
    after [disable_buffering]. *)
Theorem unbuffered_relays self items ending pulls :
  TemplateStream._gen self = mk_generator items ending →
  (length items < pulls)%nat →
  TemplateStream.iterate pulls (TemplateStream.disable_buffering self)
  = Some (items, ending_error ending, TemplateStream.__init__ exhausted)
  ∧ TemplateStream.iterate pulls
      (TemplateStream.__init__ (mk_generator items ending))
    = Some (items, ending_error ending, TemplateStream.__init__ exhausted).
Proof.
  intros Hgen Hpulls. split.
  - now rewrite (iterate_bound items ending pulls
                   (TemplateStream.disable_buffering self)).
  - now rewrite (iterate_bound items ending pulls
                   (TemplateStream.__init__ (mk_generator items ending))).
Qed.

(** X2.  Every method keeps the [buffered] flag in step with the callable in
    [_next]: a fresh stream is consistent, and [disable_buffering],
    [enable_buffering] with any size, accepted or refused, [next] and
    [__iter__] take a consistent stream to a consistent stream. *)
Theorem mode_consistent_kept self :
  mode_consistent self →
  mode_consistent (TemplateStream.disable_buffering self)
  ∧ (∀ size, mode_consistent (snd (TemplateStream.enable_buffering self size)))
  ∧ mode_consistent (snd (TemplateStream.next self))
  ∧ mode_consistent (TemplateStream.__iter__ self)
  ∧ ∀ gen, mode_consistent (TemplateStream.__init__ gen).
Proof.
  intros Hself. split; [reflexivity|]. split; [|split; [|split]].
  - intros size. unfold TemplateStream.enable_buffering.
    destruct (Z.leb_spec size 1); [exact Hself|].
    unfold mode_consistent. cbn. split; [reflexivity|lia].
  - unfold TemplateStream.next.
    destruct (match TemplateStream._next self with
              | TemplateStream.bound_gen_next => _
              | TemplateStream.buffering_next_closure size => _
              end) as [r gen].
    exact Hself.
  - exact Hself.
  - reflexivity.
Qed.

(** X3.  A [StopIteration] is final.  When [next] on a consistent stream
    raises [StopIteration], the generator is exhausted, and the next call of
    [next] raises [StopIteration] again and leaves the stream as it is. *)
Theorem stop_iteration_is_final self self' (e : exn) :
  mode_consistent self →
  TemplateStream.next self = (Raise e, self') →
  catches [StopIteration] e = true →
  TemplateStream._gen self' = exhausted
  ∧ TemplateStream.next self' = (Raise (mk_exn StopIteration ""), self').
Proof.
  intros Hself Hnext He.
  assert (Hgen : TemplateStream._gen self' = exhausted
                 ∧ TemplateStream._next self' = TemplateStream._next self
                 ∧ TemplateStream.buffered self'
                   = TemplateStream.buffered self).
  { unfold TemplateStream.next in Hnext.
    destruct (TemplateStream._next self) as [|size] eqn:Hmode.
    - destruct (gen_next (TemplateStream._gen self)) as [r gen] eqn:Hpull.
      injection Hnext as -> <-. cbn.
      split; [|split; reflexivity]. exact (gen_next_raises _ _ _ Hpull).
    - unfold mode_consistent in Hself. rewrite Hmode in Hself.
      destruct Hself as [_ Hsize].
      unfold TemplateStream.buffering_next in Hnext.
      destruct (TemplateStream._gen self) as [items ending].
      destruct (TemplateStream.while_1 _ _ _ _ _)
        as [[[e0 buf] c] gen] eqn:Hloop.
      apply while_1_leaves in Hloop; [|cbn; lia].
      destruct Hloop as [Hc Hleft].
      destruct (catches [StopIteration] e0) eqn:He0.
      + destruct (Z.eqb_spec c 0) as [->|Hne].
        * injection Hnext as -> <-. cbn. split; [|split; reflexivity].
          destruct Hleft as [->|Hfull]; [reflexivity|lia].
        * destruct (join_list buf) as [text|e1] eqn:Hjoin.
          -- discriminate Hnext.
          -- injection Hnext as -> <-.
             apply join_list_raises in Hjoin. unfold catches in He.
             rewrite Hjoin in He. discriminate He.
      + injection Hnext as -> <-. congruence. }
  destruct Hgen as (Hgen & Hmode & _). split; [exact Hgen|].
  destruct self' as [gen mode flag]. cbn in Hgen, Hmode. subst gen.
  unfold TemplateStream.next. cbn [TemplateStream._next TemplateStream._gen].
  destruct mode; reflexivity.
Qed.

(** X4.  An error of the generator costs a buffered stream the fragments of
    the pull.  Take a generator that yields [texts], fewer than [size] of
    them not empty, and then raises [e], not a [StopIteration].  The
    buffered [next] raises [e] without having returned any of [texts], and
    the generator is finished.  The same stream without buffering gives all
    of [texts] before it ends with [e]. *)
Theorem buffered_error_drops_chunk self size texts (e : exn) :
  TemplateStream._next self = TemplateStream.buffering_next_closure size →
  TemplateStream._gen self = mk_generator (Fragment <$> texts) (Some e) →
  Z.of_nat (length (non_empty texts)) < size →
  catches [StopIteration] e = false →
  TemplateStream.next self
  = (Raise e,
     {| TemplateStream._gen := exhausted;
        TemplateStream._next := TemplateStream._next self;
        TemplateStream.buffered := TemplateStream.buffered self |})
  ∧ TemplateStream.iterate (S (length texts))
      (TemplateStream.disable_buffering self)
    = Some (Fragment <$> texts, Some e, TemplateStream.__init__ exhausted).
Proof.
  intros Hmode Hgen Hfew He. split.
  - unfold TemplateStream.next. rewrite Hmode, Hgen.
    unfold TemplateStream.buffering_next. cbn [gen_items].
    rewrite length_fmap.
    change (@nil item) with (Fragment <$> @nil string).
    rewrite while_1_short by lia. now rewrite He.
  - rewrite (iterate_bound (Fragment <$> texts) (Some e) (S (length texts))
               (TemplateStream.disable_buffering self));
      [|rewrite length_fmap; lia|reflexivity|exact Hgen].
    unfold ending_error. now rewrite He.
Qed.

Lemma non_empty_app texts1 texts2 :
  non_empty (texts1 ++ texts2) = non_empty texts1 ++ non_empty texts2.
Proof. unfold non_empty. apply filter_app. Qed.

(** X5.  Iterating a stream buffered with [size >= 2] over fragments of
    which [n] are not empty gives the quotient of [n + size - 1] by [size]
    chunks, that is [n / size] rounded up, and no chunk is empty. *)
Theorem buffered_chunk_count size : ∀ pulls texts self,
  2 ≤ size →
  (length texts < pulls)%nat →
  TemplateStream._next self = TemplateStream.buffering_next_closure size →
  TemplateStream._gen self = fragments texts →
  ∃ chunks self',
    TemplateStream.iterate pulls self = Some (Fragment <$> chunks, None, self')
    ∧ Z.of_nat (length chunks)
      = (Z.of_nat (length (non_empty texts)) + size - 1) / size
    ∧ Forall (λ chunk, chunk ≠ "") chunks.
Proof.
  induction pulls as [|pulls IH]; intros texts self Hsize Hpulls Hnext Hgen;
    [lia|].
  destruct (buffered_pull self size texts Hsize Hnext Hgen)
    as (taken & rest & -> & Hend & Hpull).
  cbn [TemplateStream.iterate]. rewrite Hpull.
  rewrite non_empty_app, length_app, Nat2Z.inj_add.
  destruct (non_empty taken) as [|k kept] eqn:Hkept.
  - change (catches [StopIteration] (mk_exn StopIteration "")) with true.
    exists []. eexists. split; [reflexivity|].
    destruct Hend as [[Hzero _]|[_ ->]]; [cbn in Hzero; lia|].
    split; [|constructor]. cbn. symmetry. apply Z.div_small. lia.
  - edestruct (IH rest) as (chunks & self' & Hiter & Hcount & Hchunks);
      [exact Hsize| | | |].
    4: { rewrite Hiter.
         exists (String.concat "" (k :: kept) :: chunks), self'.
         split; [reflexivity|]. split.
         - cbn [length] in Hend |- *. rewrite Nat2Z.inj_succ, Hcount.
           set (m := Z.of_nat (S (length kept))) in *.
           assert (Hm : 1 ≤ m) by lia.
           destruct Hend as [[Hfull _]|[Hless ->]].
           + rewrite Hfull.
             replace (size + Z.of_nat (length (non_empty rest)) + size - 1)
               with (Z.of_nat (length (non_empty rest)) + size - 1 + 1 * size)
               by lia.
             rewrite Z.div_add by lia. lia.
           + change (Z.of_nat (length (non_empty []))) with 0.
             rewrite (Z.div_small (0 + size - 1)) by lia.
             apply (Z.div_unique_pos _ _ _ (m - 1)); lia.
         - constructor; [|exact Hchunks]. rewrite <- Hkept.
           apply concat_non_empty_neq. now rewrite Hkept. }
    + rewrite length_app in Hpulls.
      destruct taken; [discriminate Hkept|]. cbn [length] in Hpulls. lia.
    + exact Hnext.
    + reflexivity.
Qed.

(** X6.  Leaving the buffering mode loses no text.  After a buffered pull
    that returned [chunk], the stream with buffering disabled gives the
    fragments [rest] the pull left in the generator, one by one, and [chunk]
    followed by [rest] is the text of the fragments the generator had to
    yield before the pull. *)
Theorem disable_after_pull self self' size texts chunk :
  2 ≤ size →
  TemplateStream._next self = TemplateStream.buffering_next_closure size →
  TemplateStream._gen self = fragments texts →
  TemplateStream.next self = (Return (Fragment chunk), self') →
  ∃ taken rest,
    texts = taken ++ rest
    ∧ chunk = String.concat "" taken
    ∧ TemplateStream.iterate (S (length texts))
        (TemplateStream.disable_buffering self')
      = Some (Fragment <$> rest, None, TemplateStream.__init__ exhausted)
    ∧ chunk +:+ String.concat "" rest = String.concat "" texts.
Proof.
  intros Hsize Hmode Hgen Hnext.
  destruct (buffered_pull self size texts Hsize Hmode Hgen)
    as (taken & rest & -> & _ & Hpull).
  rewrite Hpull in Hnext.
  destruct (non_empty taken) as [|k kept] eqn:Hkept; [discriminate Hnext|].
  assert (Hchunk : chunk = String.concat "" (k :: kept)) by congruence.
  assert (Hself' : self'
                   = {| TemplateStream._gen := fragments rest;
                        TemplateStream._next := TemplateStream._next self;
                        TemplateStream.buffered :=
                          TemplateStream.buffered self |}) by congruence.
  clear Hnext. rewrite <- Hkept, concat_non_empty in Hchunk. subst chunk self'.
  exists taken, rest. split; [reflexivity|]. split; [reflexivity|]. split.
  - rewrite (iterate_bound (Fragment <$> rest) None);
      [reflexivity| |reflexivity|reflexivity].
    rewrite length_fmap, length_app. lia.
  - now rewrite concat_app.
Qed.

End stream_modes.

(** ** Template.generate: refusals, edge cases and arguments *)

Section generate_edges.
Context {value Loader : Type}.
Implicit Types (self : Template.t value Loader)
  (args : list (gmap string value)) (kwargs locals : gmap string value).

(** X7.  [generate] calls the root routine exactly once, on the assembled
    context, unless it refuses the call; it refuses in two cases only: the
    arguments do not make a dict, or [__debug__] is true, the environment is
    optimized and a local has the name of a global. *)
Theorem root_called_unless_refused (__debug__ : bool) self args kwargs :
  (trace (Template.generate __debug__ self args kwargs) = []
   ∧ ∃ e,
       outcome (Template.generate __debug__ self args kwargs) = Raise e
       ∧ (dict args kwargs = Raise e
          ∨ ∃ locals,
              dict args kwargs = Return locals
              ∧ __debug__ = true
              ∧ Environment.optimized (Template.environment self) = true
              ∧ dom locals ∩ dom (Template.globals self) ≠ ∅
              ∧ exn_class e = AssertionError))
  ∨ (∃ locals,
       dict args kwargs = Return locals
       ∧ trace (Template.generate __debug__ self args kwargs)
         = [CallRoot (update (Template.globals self) locals)]
       ∧ (__debug__ && Environment.optimized (Template.environment self)
          = false
          ∨ dom locals ∩ dom (Template.globals self) = ∅)).
Proof.
  rewrite generate_cases. unfold trace, outcome.
  destruct (dict args kwargs) as [locals|e].
  - cbn zeta.
    destruct (__debug__ && Environment.optimized (Template.environment self))
      eqn:Hcheck; cbn [andb].
    + case_bool_decide as Hov; cbn [negb].
      * right. exists locals. split; [reflexivity|]. split; [|now right].
        destruct (gen_next _) as [[first|e] gen]; reflexivity.
      * left. split; [reflexivity|]. eexists. split; [reflexivity|].
        right. exists locals. apply andb_true_iff in Hcheck as [-> ->].
        repeat split. exact Hov.
    + right. exists locals. split; [reflexivity|]. split; [|now left].
      destruct (gen_next _) as [[first|e] gen]; reflexivity.
  - left. split; [reflexivity|]. exists e. split; [reflexivity|now left].
Qed.

(** X8.  A root routine that yields nothing makes [generate] fail after it
    has called it: [generate] raises what the first [next()] raises, the
    exception of the routine's body or, when the body just returns,
    [StopIteration]; [render] and [stream] raise the same. *)
Theorem generate_root_without_item (__debug__ : bool) self args kwargs locals
    (ending : option exn) :
  dict args kwargs = Return locals →
  __debug__ && Environment.optimized (Template.environment self) = false
  ∨ dom locals ∩ dom (Template.globals self) = ∅ →
  Template.root_render_func self (update (Template.globals self) locals)
  = mk_generator [] ending →
  ∃ e,
    e = match ending with Some e => e | None => mk_exn StopIteration "" end
    ∧ Template.generate __debug__ self args kwargs
      = ([CallRoot (update (Template.globals self) locals)], Raise e)
    ∧ Template.render __debug__ self args kwargs
      = ([CallRoot (update (Template.globals self) locals)], Raise e)
    ∧ Template.stream __debug__ self args kwargs
      = ([CallRoot (update (Template.globals self) locals)], Raise e).
Proof.
  intros Hdict Hpass Hroot. eexists. split; [reflexivity|].
  assert (Hgen : Template.generate __debug__ self args kwargs
                 = ([CallRoot (update (Template.globals self) locals)],
                    Raise match ending with
                          | Some e => e
                          | None => mk_exn StopIteration ""
                          end)).
  { rewrite generate_cases, Hdict. cbn zeta.
    assert (__debug__ && Environment.optimized (Template.environment self)
            && negb (bool_decide
                       (dom locals ∩ dom (Template.globals self) = ∅))
            = false) as ->.
    { destruct Hpass as [->| ->]; [reflexivity|].
      rewrite bool_decide_eq_true_2 by reflexivity. apply andb_false_r. }
    rewrite Hroot. unfold gen_next. cbn. destruct ending; reflexivity. }
  rewrite render_cases, stream_cases, Hgen. auto.
Qed.

(** X9.  When no local has the name of a global, neither [__debug__] nor the
    [optimized] flag of the environment changes what [generate], [render] and
    [stream] do: two templates with the same globals and the same root
    routine give the same trace and the same outcome. *)
Theorem flags_matter_only_for_overrides (__debug__ __debug__' : bool)
    self self' args kwargs locals :
  Template.globals self' = Template.globals self →
  Template.root_render_func self' = Template.root_render_func self →
  dict args kwargs = Return locals →
  dom locals ∩ dom (Template.globals self) = ∅ →
  Template.generate __debug__ self args kwargs
  = Template.generate __debug__' self' args kwargs
  ∧ Template.render __debug__ self args kwargs
    = Template.render __debug__' self' args kwargs
  ∧ Template.stream __debug__ self args kwargs
    = Template.stream __debug__' self' args kwargs.
Proof.
  intros Hglobals Hroot Hdict Hdisjoint.
  assert (Hgen : Template.generate __debug__ self args kwargs
                 = Template.generate __debug__' self' args kwargs).
  { rewrite !generate_cases, Hdict. cbn zeta. rewrite Hglobals, Hroot.
    rewrite bool_decide_eq_true_2 by exact Hdisjoint.
    now rewrite !andb_false_r. }
  now rewrite !render_cases, !stream_cases, Hgen.
Qed.

(** X10.  With a positional mapping and keyword arguments, the context of
    the root routine maps a name to its keyword value, otherwise to its value
    in the mapping, otherwise to its value in the globals of the template. *)
Theorem keywords_over_mapping (__debug__ : bool) self
    (mapping : gmap string value) kwargs (context : gmap string value) :
  CallRoot context ∈ trace (Template.generate __debug__ self [mapping] kwargs) →
  ∀ name,
    context !! name =
    match kwargs !! name with
    | Some v => Some v
    | None =>
        match mapping !! name with
        | Some v => Some v
        | None => Template.globals self !! name
        end
    end.
Proof.
  rewrite generate_cases. cbn [dict]. cbn zeta. unfold trace.
  intros Hin name.
  assert (context = update (Template.globals self) (kwargs ∪ mapping))
    as ->.
  { destruct (_ && negb _); [now apply elem_of_nil in Hin|].
    destruct (gen_next _) as [[first|e] gen]; cbn in Hin;
      apply list_elem_of_singleton in Hin; now injection Hin. }
  unfold update. rewrite !lookup_union.
  destruct (kwargs !! name), (mapping !! name),
    (Template.globals self !! name); reflexivity.
Qed.

(** X11.  When the root routine fails after some fragments, [render] raises
    the error and returns no text, while the stream gives the fragments
    produced before the error and then ends with it. *)
Theorem render_raises_stream_delivers (__debug__ : bool) self args kwargs
    (texts : list string) (e : exn) :
  outcome (Template.generate __debug__ self args kwargs)
  = Return (mk_generator (Fragment <$> texts) (Some e)) →
  catches [StopIteration] e = false →
  outcome (Template.render __debug__ self args kwargs) = Raise e
  ∧ ∃ stream,
      outcome (Template.stream __debug__ self args kwargs) = Return stream
      ∧ TemplateStream.iterate (S (length texts)) stream
        = Some (Fragment <$> texts, Some e, TemplateStream.__init__ exhausted).
Proof.
  rewrite render_cases, stream_cases. unfold outcome.
  destruct (Template.generate _ _ _ _) as [tr r]. cbn [snd].
  intros -> He. split.
  - cbn [snd]. unfold join. cbn [gen_end]. now rewrite He.
  - eexists. split; [reflexivity|].
    rewrite (iterate_bound (Fragment <$> texts) (Some e));
      [|rewrite length_fmap; lia|reflexivity|reflexivity].
    unfold ending_error. now rewrite He.
Qed.

(** X12.  The message of the refusal for one name.  When exactly one local
    has the name of a global, the [AssertionError] of [generate] names it in
    the singular form the format string gives. *)
Theorem single_override_message self args kwargs locals (name : string) :
  dict args kwargs = Return locals →
  Environment.optimized (Template.environment self) = true →
  dom locals ∩ dom (Template.globals self) = {[ name ]} →
  Template.generate true self args kwargs
  = ([], Raise (mk_exn AssertionError
                  ("the per template variable " +:+ name
                   +:+ " override a global variable. With an enabled "
                   +:+ "optimizer this will lead to unexpected results."))).
Proof.
  intros Hdict Hopt Hone. rewrite generate_cases, Hdict. cbn zeta.
  rewrite Hopt, Hone.
  rewrite bool_decide_eq_false_2
    by (intros Hempty; assert (Hin : name ∈ (∅ : gset string))
          by (rewrite <- Hempty; now apply elem_of_singleton);
        exact (not_elem_of_empty name Hin)).
  cbn [andb negb]. unfold Template.override_message.
  rewrite size_singleton, elements_singleton. reflexivity.
Qed.

End generate_edges.

(** ** Environment.compile and Environment.from_string *)

Section compilation.
Context {value Loader Node Code : Type}
  `{!Compilation.Collaborators value Loader Node Code}.
Implicit Types (self : Environment.t value Loader)
  (source : Compilation.source Node)
  (filename : option Compilation.py_string)
  (globals : option (gmap string value)).

(** [compile] stage by stage. *)
Lemma compile_cases self source filename (raw : bool) globals :
  Compilation.compile self source filename raw globals =
  match parsed self source filename with
  | Raise e =>
      (parse_stages source filename, Compilation.Failed (Compilation.Raised e))
  | Return node =>
      if Environment.optimized self
      then
        let optimizing :=
          Compilation.Optimizing node (Compilation.or_empty globals) in
        match Compilation.optimize node self (Compilation.or_empty globals)
        with
        | Raise e =>
            (parse_stages source filename ++ [optimizing],
             Compilation.Failed (Compilation.Raised e))
        | Return node' =>
            let generating := Compilation.Generating node' filename in
            match Compilation.generate node' self filename with
            | Raise e =>
                (parse_stages source filename ++ [optimizing; generating],
                 Compilation.Failed (Compilation.Raised e))
            | Return text =>
                if raw
                then
                  (parse_stages source filename ++ [optimizing; generating],
                   Compilation.Done (Compilation.GeneratedSource text))
                else
                  let filename' :=
                    match filename with
                    | Some (Compilation.Unicode name) =>
                        Some (Compilation.Str (Compilation.encode_utf8 name))
                    | _ => filename
                    end in
                  (parse_stages source filename
                   ++ [optimizing; generating;
                       Compilation.Compiling text filename'],
                   match Compilation.builtin_compile text filename' with
                   | Return code =>
                       Compilation.Done (Compilation.CodeObject code)
                   | Raise e => Compilation.Failed (Compilation.Raised e)
                   end)
            end
        end
      else
        (parse_stages source filename,
         Compilation.Failed (Compilation.UnboundLocalError "node"))
  end.
Proof.
  unfold Compilation.compile, Compilation.parse, Compilation.and_then,
    Compilation.enter, Compilation.done, Compilation.fail, parsed,
    parse_stages.
  destruct source as [text|node]; cbn.
  - destruct (Compilation.Parser_parse self text filename) as [node|e];
      [|reflexivity].
    destruct (Environment.optimized self); [|reflexivity]. cbn.
    destruct (Compilation.optimize _ _ _) as [node'|e]; [|reflexivity]. cbn.
    destruct (Compilation.generate _ _ _) as [src|e]; [|reflexivity].
    destruct raw; [reflexivity|].
    destruct (Compilation.builtin_compile _ _) as [code|e]; reflexivity.
  - destruct (Environment.optimized self); [|reflexivity]. cbn.
    destruct (Compilation.optimize _ _ _) as [node'|e]; [|reflexivity]. cbn.
    destruct (Compilation.generate _ _ _) as [src|e]; [|reflexivity].
    destruct raw; [reflexivity|].
    destruct (Compilation.builtin_compile _ _) as [code|e]; reflexivity.
Qed.

Lemma from_string_cases self source filename globals :
  Compilation.from_string self source filename globals =
  match Compilation.compile self source filename false None with
  | (st, Compilation.Failed f) => (st, Compilation.Failed f)
  | (st, Compilation.Done code) =>
      (st ++ [Compilation.Executing code],
       match Compilation.exec code self with
       | Return namespace =>
           Compilation.Done
             (Template.__init__ self namespace
                (Environment.make_globals self globals))
       | Raise e => Compilation.Failed (Compilation.Raised e)
       end)
  end.
Proof.
  unfold Compilation.from_string, Compilation.and_then, Compilation.enter,
    Compilation.done.
  destruct (Compilation.compile _ _ _ _ _) as [st [code|f]]; [|reflexivity].
  destruct (Compilation.exec code self); reflexivity.
Qed.

(** X13.  In an environment that is not optimized the local [node] of
    [compile] is never assigned, so [compile] cannot succeed: once the source
    is a node, or has been parsed into one, it fails with
    [UnboundLocalError] before the optimizer, the code generator or the
    built-in [compile] is called; and [from_string] never returns a
    template. *)
Theorem compile_needs_optimizer self :
  Environment.optimized self = false →
  (∀ source filename (raw : bool) globals node,
     parsed self source filename = Return node →
     Compilation.compile self source filename raw globals
     = (parse_stages source filename,
        Compilation.Failed (Compilation.UnboundLocalError "node")))
  ∧ (∀ source filename (raw : bool) globals c,
       Compilation.ended
         (Compilation.compile self source filename raw globals)
       ≠ Compilation.Done c)
  ∧ (∀ source filename globals t,
       Compilation.ended
         (Compilation.from_string self source filename globals)
       ≠ Compilation.Done t).
Proof.
  intros Hopt.
  assert (Hnever : ∀ source filename (raw : bool) globals c,
            Compilation.ended
              (Compilation.compile self source filename raw globals)
            ≠ Compilation.Done c).
  { intros source filename raw globals c. rewrite compile_cases, Hopt.
    destruct (parsed self source filename); discriminate. }
  split; [|split; [exact Hnever|]].
  - intros source filename raw globals node Hparsed.
    now rewrite compile_cases, Hparsed, Hopt.
  - intros source filename globals t. rewrite from_string_cases.
    specialize (Hnever source filename false None).
    destruct (Compilation.compile _ _ _ _ _) as [st [code|f]];
      [|discriminate].
    exfalso. exact (Hnever code eq_refl).
Qed.

(** X14.  A template that [from_string] returns has gone through every
    stage, in this order: the parser unless the source is a node, the
    optimizer, which is given an empty dict of globals whatever [globals]
    is, the code generator with the file name as it was passed, the built-in
    [compile] with a unicode file name encoded, and the execution of the code
    object.  The template belongs to the environment and its globals are
    [make_globals(globals)]. *)
Theorem from_string_template self source filename globals
    (t : Template.t value Loader) :
  Compilation.ended (Compilation.from_string self source filename globals)
  = Compilation.Done t →
  ∃ node node' text code namespace,
    parsed self source filename = Return node
    ∧ Compilation.optimize node self ∅ = Return node'
    ∧ Compilation.generate node' self filename = Return text
    ∧ Compilation.exec (Compilation.CodeObject code) self = Return namespace
    ∧ Compilation.stages
        (Compilation.from_string self source filename globals)
      = parse_stages source filename
        ++ [Compilation.Optimizing node ∅;
            Compilation.Generating node' filename;
            Compilation.Compiling text
              match filename with
              | Some (Compilation.Unicode name) =>
                  Some (Compilation.Str (Compilation.encode_utf8 name))
              | _ => filename
              end;
            Compilation.Executing (Compilation.CodeObject code)]
    ∧ t = Template.__init__ self namespace
            (Environment.make_globals self globals)
    ∧ Template.environment t = self
    ∧ Template.globals t = Environment.make_globals self globals
    ∧ Environment.optimized self = true.
Proof.
  rewrite from_string_cases, compile_cases.
  unfold Compilation.ended, Compilation.stages.
  destruct (parsed self source filename) as [node|e]; [|discriminate].
  destruct (Environment.optimized self); [|discriminate].
  cbn zeta. change (Compilation.or_empty None) with (∅ : gmap string value).
  destruct (Compilation.optimize node self ∅) as [node'|e] eqn:Hopt;
    [|discriminate].
  destruct (Compilation.generate node' self filename) as [text|e] eqn:Hgen;
    [|discriminate].
  destruct (Compilation.builtin_compile text _) as [code|e]; [|discriminate].
  destruct (Compilation.exec _ self) as [namespace|e] eqn:Hexec;
    [|discriminate].
  cbn [fst snd]. intros [= <-].
  exists node, node', text, code, namespace.
  repeat split; try assumption. now rewrite <- app_assoc.
Qed.

(** X15.  With [raw] set, [compile] stops after the code generator: it
    never calls the built-in [compile], it never returns a code object, and
    the source it returns is what the code generator made of the optimized
    node. *)
Theorem compile_raw_stops_early self source filename globals :
  (∀ text name,
     Compilation.Compiling text name
     ∉ Compilation.stages
         (Compilation.compile self source filename true globals))
  ∧ (∀ code,
       Compilation.ended
         (Compilation.compile self source filename true globals)
       ≠ Compilation.Done (Compilation.CodeObject code))
  ∧ (∀ text,
       Compilation.ended
         (Compilation.compile self source filename true globals)
       = Compilation.Done (Compilation.GeneratedSource text) →
       ∃ node node',
         parsed self source filename = Return node
         ∧ Compilation.optimize node self (Compilation.or_empty globals)
           = Return node'
         ∧ Compilation.generate node' self filename = Return text).
Proof.
  rewrite compile_cases. unfold Compilation.ended, Compilation.stages.
  assert (Hparse : ∀ text name,
            Compilation.Compiling text name
            ∉ (parse_stages source filename
               : list (Compilation.stage value Node Code))).
  { intros text name. destruct source; cbn; [|apply not_elem_of_nil].
    intros Hin. apply list_elem_of_singleton in Hin. discriminate Hin. }
  destruct (parsed self source filename) as [node|e].
  2: { split; [exact Hparse|]. split; intros; discriminate. }
  destruct (Environment.optimized self).
  2: { split; [exact Hparse|]. split; intros; discriminate. }
  cbn zeta.
  destruct (Compilation.optimize node self _) as [node'|e] eqn:Hopt.
  2: { split; [|split; intros; discriminate].
       intros text name Hin. apply elem_of_app in Hin as [Hin|Hin];
         [now apply Hparse in Hin|].
       apply list_elem_of_singleton in Hin. discriminate Hin. }
  assert (Hstages : ∀ text name,
            Compilation.Compiling text name
            ∉ (parse_stages source filename
               ++ [Compilation.Optimizing node (Compilation.or_empty globals);
                   Compilation.Generating node' filename]
               : list (Compilation.stage value Node Code))).
  { intros text name Hin. apply elem_of_app in Hin as [Hin|Hin];
      [now apply Hparse in Hin|].
    apply elem_of_cons in Hin as [Hin|Hin]; [discriminate Hin|].
    apply list_elem_of_singleton in Hin. discriminate Hin. }
  destruct (Compilation.generate node' self filename) as [text|e] eqn:Hgen;
    cbn [fst snd].
  - split; [exact Hstages|]. split; [intros; discriminate|].
    intros text' [= <-]. now exists node, node'.
  - split; [exact Hstages|]. split; intros; discriminate.
Qed.

End compilation.

(** ** Witnesses of the further properties *)

Lemma unbuffered_relays_witness :
  let buffered := snd (TemplateStream.enable_buffering sample_stream 2) in
  let items := Fragment <$> ["a"; ""; "b"; "c"; ""] in
  TemplateStream._gen buffered = mk_generator items None
  ∧ (length items < 6)%nat
  ∧ TemplateStream.iterate 6 (TemplateStream.disable_buffering buffered)
    = Some (items, None, TemplateStream.__init__ exhausted).
Proof.
  intros buffered items. split; [reflexivity|]. split; [cbn; lia|].
  exact (proj1 (unbuffered_relays buffered items None 6 eq_refl
                  ltac:(cbn; lia))).
Defined.

Lemma mode_consistent_kept_witness :
  mode_consistent sample_stream
  ∧ mode_consistent (snd (TemplateStream.enable_buffering sample_stream 3))
  ∧ mode_consistent (snd (TemplateStream.enable_buffering sample_stream 0))
  ∧ mode_consistent (snd (TemplateStream.next sample_stream)).
Proof.
  assert (Hsample : mode_consistent sample_stream) by reflexivity.
  destruct (mode_consistent_kept sample_stream Hsample)
    as (_ & Henable & Hnext & _).
  split; [exact Hsample|]. split; [apply Henable|].
  split; [apply Henable|exact Hnext].
Defined.

Lemma stop_iteration_is_final_witness :
  let blank :=
    snd (TemplateStream.enable_buffering
           (TemplateStream.__init__ (fragments [""])) 2) in
  let after :=
    {| TemplateStream._gen := exhausted;
       TemplateStream._next := TemplateStream.buffering_next_closure 2;
       TemplateStream.buffered := true |} in
  mode_consistent blank
  ∧ TemplateStream.next blank = (Raise (mk_exn StopIteration ""), after)
  ∧ catches [StopIteration] (mk_exn StopIteration "") = true
  ∧ TemplateStream.next after = (Raise (mk_exn StopIteration ""), after).
Proof.
  intros blank after.
  assert (Hblank : mode_consistent blank)
    by (split; [reflexivity|lia]).
  split; [exact Hblank|]. split; [reflexivity|]. split; [reflexivity|].
  exact (proj2 (stop_iteration_is_final blank after (mk_exn StopIteration "")
                  Hblank eq_refl eq_refl)).
Defined.

Lemma buffered_error_drops_chunk_witness :
  let buffered :=
    snd (TemplateStream.enable_buffering
           (TemplateStream.__init__ failing_generator) 2) in
  TemplateStream._next buffered = TemplateStream.buffering_next_closure 2
  ∧ TemplateStream._gen buffered
    = mk_generator (Fragment <$> ["a"; ""])
        (Some (mk_exn RuntimeError "boom"))
  ∧ Z.of_nat (length (non_empty ["a"; ""])) < 2
  ∧ catches [StopIteration] (mk_exn RuntimeError "boom") = false
  ∧ fst (TemplateStream.next buffered) = Raise (mk_exn RuntimeError "boom")
  ∧ TemplateStream.iterate 3 (TemplateStream.disable_buffering buffered)
    = Some ([Fragment "a"; Fragment ""], Some (mk_exn RuntimeError "boom"),
            TemplateStream.__init__ exhausted).
Proof.
  intros buffered.
  assert (Hfew : Z.of_nat (length (non_empty ["a"; ""])) < 2)
    by (vm_compute; reflexivity).
  split; [reflexivity|]. split; [reflexivity|]. split; [exact Hfew|].
  split; [reflexivity|].
  destruct (buffered_error_drops_chunk buffered 2 ["a"; ""]
              (mk_exn RuntimeError "boom") eq_refl eq_refl Hfew eq_refl)
    as [Hnext Hraw].
  split; [now rewrite Hnext|exact Hraw].
Defined.

Lemma buffered_chunk_count_witness :
  let buffered := snd (TemplateStream.enable_buffering sample_stream 2) in
  2 ≤ 2
  ∧ (length ["a"; ""; "b"; "c"; ""] < 6)%nat
  ∧ TemplateStream._next buffered = TemplateStream.buffering_next_closure 2
  ∧ TemplateStream._gen buffered = fragments ["a"; ""; "b"; "c"; ""]
  ∧ ∃ chunks self',
      TemplateStream.iterate 6 buffered
      = Some (Fragment <$> chunks, None, self')
      ∧ Z.of_nat (length chunks) = 2.
Proof.
  intros buffered. split; [lia|]. split; [cbn; lia|].
  split; [reflexivity|]. split; [reflexivity|].
  destruct (buffered_chunk_count 2 6 ["a"; ""; "b"; "c"; ""] buffered)
    as (chunks & self' & Hiter & Hcount & _);
    [lia|cbn; lia|reflexivity|reflexivity|].
  exists chunks, self'. split; [exact Hiter|]. exact Hcount.
Defined.

Lemma disable_after_pull_witness :
  let buffered := snd (TemplateStream.enable_buffering sample_stream 2) in
  let after := snd (TemplateStream.next buffered) in
  2 ≤ 2
  ∧ TemplateStream.next buffered = (Return (Fragment "ab"), after)
  ∧ ∃ taken rest,
      ["a"; ""; "b"; "c"; ""] = taken ++ rest
      ∧ TemplateStream.iterate 6 (TemplateStream.disable_buffering after)
        = Some (Fragment <$> rest, None, TemplateStream.__init__ exhausted)
      ∧ "ab" +:+ String.concat "" rest = "abc".
Proof.
  intros buffered after. split; [lia|]. split; [reflexivity|].
  destruct (disable_after_pull buffered after 2 ["a"; ""; "b"; "c"; ""] "ab")
    as (taken & rest & Htexts & _ & Hiter & Hconcat);
    [lia|reflexivity|reflexivity|reflexivity|].
  exists taken, rest. split; [exact Htexts|]. split; [exact Hiter|].
  exact Hconcat.
Defined.

Lemma generate_root_without_item_witness :
  let silent := template_of silent_unit in
  dict [] (∅ : gmap string Objects.object) = Return ∅
  ∧ dom (∅ : gmap string Objects.object) ∩ dom (Template.globals silent) = ∅
  ∧ Template.root_render_func silent (update (Template.globals silent) ∅)
    = mk_generator [] None
  ∧ Template.render true silent [] ∅
    = ([CallRoot ∅], Raise (mk_exn StopIteration "")).
Proof.
  intros silent.
  assert (Hdisjoint : dom (∅ : gmap string Objects.object)
                      ∩ dom (Template.globals silent) = ∅)
    by reflexivity.
  split; [reflexivity|]. split; [exact Hdisjoint|]. split; [reflexivity|].
  destruct (generate_root_without_item true silent [] ∅ ∅ None eq_refl
              (or_intror Hdisjoint) eq_refl)
    as (e & -> & _ & Hrender & _).
  exact Hrender.
Defined.

Lemma flags_matter_only_for_overrides_witness :
  let locals : gmap string Objects.object := {[ "y" := Objects.PyInt 2 ]} in
  Template.globals (Objects.shadowed false)
  = Template.globals (Objects.shadowed true)
  ∧ dict [] locals = Return locals
  ∧ dom locals ∩ dom (Template.globals (Objects.shadowed true)) = ∅
  ∧ Template.render true (Objects.shadowed true) [] locals
    = Template.render false (Objects.shadowed false) [] locals.
Proof.
  intros locals.
  assert (Hdisjoint : dom locals
                      ∩ dom (Template.globals (Objects.shadowed true)) = ∅)
    by reflexivity.
  split; [reflexivity|]. split; [reflexivity|]. split; [exact Hdisjoint|].
  exact (proj1 (proj2 (flags_matter_only_for_overrides true false
                         (Objects.shadowed true) (Objects.shadowed false)
                         [] locals locals eq_refl eq_refl eq_refl
                         Hdisjoint))).
Defined.

Lemma keywords_over_mapping_witness :
  let mapping : gmap string Objects.object :=
    {[ "x" := Objects.PyInt 3; "m" := Objects.PyInt 4 ]} in
  let kwargs : gmap string Objects.object := {[ "x" := Objects.PyInt 2 ]} in
  let context := update (Template.globals (Objects.shadowed false))
                   (kwargs ∪ mapping) in
  CallRoot context
  ∈ trace (Template.generate true (Objects.shadowed false) [mapping] kwargs)
  ∧ context !! "x" = Some (Objects.PyInt 2)
  ∧ context !! "m" = Some (Objects.PyInt 4).
Proof.
  intros mapping kwargs context.
  assert (Hin : CallRoot context
                ∈ trace (Template.generate true (Objects.shadowed false)
                           [mapping] kwargs))
    by (apply list_elem_of_singleton; reflexivity).
  split; [exact Hin|].
  rewrite !(keywords_over_mapping true (Objects.shadowed false) mapping
              kwargs context Hin).
  split; reflexivity.
Defined.

Lemma render_raises_stream_delivers_witness :
  let failing := template_of failing_unit in
  let boom := mk_exn RuntimeError "boom" in
  outcome (Template.generate true failing [] ∅)
  = Return (mk_generator (Fragment <$> ["a"]) (Some boom))
  ∧ catches [StopIteration] boom = false
  ∧ outcome (Template.render true failing [] ∅) = Raise boom
  ∧ ∃ stream,
      outcome (Template.stream true failing [] ∅) = Return stream
      ∧ TemplateStream.iterate 2 stream
        = Some ([Fragment "a"], Some boom, TemplateStream.__init__ exhausted).
Proof.
  intros failing boom. split; [reflexivity|]. split; [reflexivity|].
  exact (render_raises_stream_delivers true failing [] ∅ ["a"] boom
           eq_refl eq_refl).
Defined.

Lemma single_override_message_witness :
  let locals : gmap string Objects.object := {[ "x" := Objects.PyInt 2 ]} in
  dict [] locals = Return locals
  ∧ Environment.optimized (Template.environment (Objects.shadowed true))
    = true
  ∧ dom locals ∩ dom (Template.globals (Objects.shadowed true)) = {[ "x" ]}
  ∧ Template.generate true (Objects.shadowed true) [] locals
    = ([], Raise (mk_exn AssertionError
                    ("the per template variable x override a global "
                     +:+ "variable. With an enabled optimizer this will "
                     +:+ "lead to unexpected results."))).
Proof.
  intros locals.
  assert (Hone : dom locals ∩ dom (Template.globals (Objects.shadowed true))
                 = {[ "x" ]}) by reflexivity.
  split; [reflexivity|]. split; [reflexivity|]. split; [exact Hone|].
  exact (single_override_message (Objects.shadowed true) [] locals locals
           "x" eq_refl eq_refl Hone).
Defined.

Lemma compile_needs_optimizer_witness :
  let env := Objects.environment false ∅ None in
  Environment.optimized env = false
  ∧ parsed env (Compilation.Text "hello")
      (Some (Compilation.Str "<string>"))
    = Return "hello"
  ∧ Compilation.compile env (Compilation.Text "hello")
      (Some (Compilation.Str "<string>")) false None
    = ([Compilation.Parsing "hello" (Some (Compilation.Str "<string>"))],
       Compilation.Failed (Compilation.UnboundLocalError "node")).
Proof.
  intros env. split; [reflexivity|]. split; [reflexivity|].
  exact (proj1 (compile_needs_optimizer env eq_refl)
           (Compilation.Text "hello") (Some (Compilation.Str "<string>"))
           false None "hello" eq_refl).
Defined.

Lemma from_string_template_witness :
  let env := Objects.environment true {[ "g" := Objects.PyInt 0 ]} None in
  let d : gmap string Objects.object := {[ "t" := Objects.PyInt 5 ]} in
  ∃ t,
    Compilation.ended
      (Compilation.from_string env (Compilation.Text "hello")
         (Some (Compilation.Unicode "<string>")) (Some d))
    = Compilation.Done t
    ∧ Template.environment t = env
    ∧ Template.globals t = Environment.make_globals env (Some d)
    ∧ Template.render true t [] ∅
      = ([CallRoot (Environment.make_globals env (Some d))], Return "hello").
Proof.
  intros env d. eexists.
  assert (Hdone :
    Compilation.ended
      (Compilation.from_string env (Compilation.Text "hello")
         (Some (Compilation.Unicode "<string>")) (Some d))
    = Compilation.Done
        (Template.__init__ env
           {| Template.filename := "<string>";
              Template.root _ :=
                mk_generator [StreamRef; Fragment "hello"] None;
              Template.code_blocks := ∅ |}
           (Environment.make_globals env (Some d)))) by reflexivity.
  split; [exact Hdone|].
  destruct (from_string_template env (Compilation.Text "hello")
              (Some (Compilation.Unicode "<string>")) (Some d) _ Hdone)
    as (node & node' & text & code & namespace & _ & _ & _ & _ & _ & _
        & Henv & Hglobals & _).
  split; [exact Henv|]. split; [exact Hglobals|]. reflexivity.
Defined.

Lemma get_template_calls_loader_witness :
  let loader : Objects.DictLoader := {[ "index.html" := Objects.show_x ]} in
  let env := Objects.environment true ∅ (Some loader) in
  let d : gmap string Objects.object := {[ "x" := Objects.PyInt 3 ]} in
  Environment.loader env = Some loader
  ∧ Environment.get_template
      (T := Template.t Objects.object Objects.DictLoader)
      env "index.html" (Some "layout.html") (Some d)
    = ([CallLoader "index.html" (Environment.make_globals env (Some d))],
       Return (Template.__init__ env Objects.show_x
                 (Environment.make_globals env (Some d))))
  ∧ outcome (Environment.get_template
               (T := Template.t Objects.object Objects.DictLoader)
               env "missing.html" None None)
    = Raise (mk_exn LookupError "missing.html").
Proof.
  intros loader env d. split; [reflexivity|]. split.
  - rewrite (get_template_calls_loader
               (T := Template.t Objects.object Objects.DictLoader)
               env loader "index.html" (Some "layout.html") (Some d) eq_refl).
    reflexivity.
  - rewrite (get_template_calls_loader
               (T := Template.t Objects.object Objects.DictLoader)
               env loader "missing.html" None None eq_refl).
    reflexivity.
Defined.
